(** * bd_pz5: the food-product lookup client and its search worker

    A shallow embedding of [FoodDatabase] and [SearchThread.run] from
    [bd_pz5.py], and the properties of the lookup / search / normalise data
    path.

    Python values that come out of [response.json()] are modelled by the
    type [json]; a Python [str] is a list of Unicode code points; an
    exception is represented by its [str(e)] text; the instance state
    ([self.cache]), the HTTP requests issued through [self.session] and the
    Qt signals emitted by the worker are threaded through a state and
    exception monad. *)

From Stdlib Require Import String Ascii ZArith NArith List Bool Lia.
From Stdlib Require Import Floats.SpecFloat.
From stdpp Require Import base option list gmap.

Local Open Scope Z_scope.

(* ===================================================================== *)
(** * Python strings                                                      *)
(* ===================================================================== *)

Module PyStr.

(** A [str] is a sequence of code points. *)
Abbreviation pystr := (list N).

(** Decoder for the UTF-8 literals of this file. *)
Fixpoint utf8_go (bs : list N) (need : nat) (acc : N) : pystr :=
  match bs with
  | [] => []
  | b :: bs' =>
      if (b <? 128)%N then b :: utf8_go bs' 0 0%N
      else if (b <? 192)%N then
        let acc' := (acc * 64 + (b - 128))%N in
        match need with
        | O => utf8_go bs' 0 0%N
        | S O => acc' :: utf8_go bs' 0 0%N
        | S n => utf8_go bs' n acc'
        end
      else if (b <? 224)%N then utf8_go bs' 1 (b - 192)%N
      else if (b <? 240)%N then utf8_go bs' 2 (b - 224)%N
      else utf8_go bs' 3 (b - 240)%N
  end.

Definition u (s : string) : pystr :=
  utf8_go (List.map N_of_ascii (list_ascii_of_string s)) 0 0%N.
Arguments u s%_string : simpl never.

Fixpoint str_eqb (a b : pystr) : bool :=
  match a, b with
  | [], [] => true
  | x :: a', y :: b' => (x =? y)%N && str_eqb a' b'
  | _, _ => false
  end.

Definition in_ranges (tbl : list (N * N)) (c : N) : bool :=
  existsb (fun r => (fst r <=? c)%N && (c <=? snd r)%N) tbl.

(** [str.isspace] on one character (Unicode 14). *)
Definition space_ranges : list (N * N) :=
  [(9, 13); (28, 32); (133, 133); (160, 160); (5760, 5760); (8192, 8202);
   (8232, 8233); (8239, 8239); (8287, 8287); (12288, 12288)]%N.

(** [str.isdigit] on one character: Numeric_Type Decimal or Digit
    (Unicode 14). *)
Definition digit_ranges : list (N * N) :=
  [(48, 57); (178, 179); (185, 185); (1632, 1641); (1776, 1785);
   (1984, 1993); (2406, 2415); (2534, 2543); (2662, 2671); (2790, 2799);
   (2918, 2927); (3046, 3055); (3174, 3183); (3302, 3311); (3430, 3439);
   (3558, 3567); (3664, 3673); (3792, 3801); (3872, 3881); (4160, 4169);
   (4240, 4249); (4969, 4977); (6112, 6121); (6160, 6169); (6470, 6479);
   (6608, 6618); (6784, 6793); (6800, 6809); (6992, 7001); (7088, 7097);
   (7232, 7241); (7248, 7257); (8304, 8304); (8308, 8313); (8320, 8329);
   (9312, 9320); (9332, 9340); (9352, 9360); (9450, 9450); (9461, 9469);
   (9471, 9471); (10102, 10110); (10112, 10120); (10122, 10130);
   (42528, 42537); (43216, 43225); (43264, 43273); (43472, 43481);
   (43504, 43513); (43600, 43609); (44016, 44025); (65296, 65305);
   (66720, 66729); (68160, 68163); (68912, 68921); (69216, 69224);
   (69714, 69722); (69734, 69743); (69872, 69881); (69942, 69951);
   (70096, 70105); (70384, 70393); (70736, 70745); (70864, 70873);
   (71248, 71257); (71360, 71369); (71472, 71481); (71904, 71913);
   (72016, 72025); (72784, 72793); (73040, 73049); (73120, 73129);
   (92768, 92777); (92864, 92873); (93008, 93017); (120782, 120831);
   (123200, 123209); (123632, 123641); (125264, 125273); (127232, 127242);
   (130032, 130041)]%N.

Definition isspace_char : N -> bool := in_ranges space_ranges.
Definition isdigit_char : N -> bool := in_ranges digit_ranges.

(** [s.lstrip()], [s.rstrip()], [s.strip()] *)
Fixpoint lstrip (s : pystr) : pystr :=
  match s with
  | [] => []
  | c :: s' => if isspace_char c then lstrip s' else s
  end.

Definition rstrip (s : pystr) : pystr := rev (lstrip (rev s)).

Definition strip (s : pystr) : pystr := rstrip (lstrip s).

(** [s.isdigit()]: every character is a digit and there is at least one. *)
Definition isdigit (s : pystr) : bool :=
  negb (str_eqb s []) && forallb isdigit_char s.

(** [len(s)] *)
Definition len (s : pystr) : Z := Z.of_nat (length s).

End PyStr.
Import PyStr.

(* ===================================================================== *)
(** * Python values                                                       *)
(* ===================================================================== *)

(** What [json.loads] can build: [None], [bool], [int], [float], [str],
    [list] and [dict].  A [dict] keeps its items in insertion order; keys
    are looked up from the front. *)
#[warnings="-register-all"]
Inductive json : Type :=
| JNull
| JBool (b : bool)
| JInt (z : Z)
| JFloat (f : spec_float)
| JStr (s : pystr)
| JArr (items : list json)
| JObj (fields : list (pystr * json)).

(** The result of a call that may raise; an exception is kept as the text
    [str(e)]. *)
Inductive outcome (A : Type) : Type :=
| Ret (a : A)
| Raise (msg : pystr).
Arguments Ret {A} a.
Arguments Raise {A} msg.

Module Py.

(** [type(v).__name__] *)
Definition type_name (v : json) : pystr :=
  match v with
  | JNull => u "NoneType"
  | JBool _ => u "bool"
  | JInt _ => u "int"
  | JFloat _ => u "float"
  | JStr _ => u "str"
  | JArr _ => u "list"
  | JObj _ => u "dict"
  end.

(** Text of the [AttributeError] for [v.attr]. *)
Definition no_attribute (v : json) (attr : pystr) : pystr :=
  u "'" ++ type_name v ++ u "' object has no attribute '" ++ attr ++ u "'".

(** Text of the [TypeError] for [iter(v)]. *)
Definition not_iterable (v : json) : pystr :=
  u "'" ++ type_name v ++ u "' object is not iterable".

(** Text of [KeyError(k)] for a [str] key without quotes or escapes in it:
    the [repr] of the key. *)
Definition key_error (k : pystr) : pystr := u "'" ++ k ++ u "'".

(** [bool(v)] *)
Definition truthy (v : json) : bool :=
  match v with
  | JNull => false
  | JBool b => b
  | JInt z => negb (z =? 0)
  | JFloat f => match f with S754_zero _ => false | _ => true end
  | JStr s => negb (str_eqb s [])
  | JArr l => match l with [] => false | _ => true end
  | JObj d => match d with [] => false | _ => true end
  end.

(** The [float] 1.0 in binary64. *)
Definition float_one : spec_float := S754_finite false 4503599627370496 (-52).

(** [v == 1] *)
Definition eq_one (v : json) : bool :=
  match v with
  | JBool b => b
  | JInt z => z =? 1
  | JFloat f => SFeqb f float_one
  | _ => false
  end.

(** [v == s] for a [str] literal [s]; [v != s] is its negation. *)
Definition eq_str (v : json) (s : pystr) : bool :=
  match v with
  | JStr t => str_eqb t s
  | _ => false
  end.

(** Lookup in the items of a [dict]. *)
Fixpoint dict_get (d : list (pystr * json)) (k : pystr) : option json :=
  match d with
  | [] => None
  | (k', v) :: d' => if str_eqb k' k then Some v else dict_get d' k
  end.

(** [d[k] = v] on the items of a [dict]: overwrite in place, or append. *)
Fixpoint dict_set (d : list (pystr * json)) (k : pystr) (v : json)
  : list (pystr * json) :=
  match d with
  | [] => [(k, v)]
  | (k', v') :: d' =>
      if str_eqb k' k then (k', v) :: d' else (k', v') :: dict_set d' k v
  end.

(** [o.get(k, default)] *)
Definition get (o : json) (k : pystr) (dflt : json) : outcome json :=
  match o with
  | JObj d => Ret (default dflt (dict_get d k))
  | _ => Raise (no_attribute o (u "get"))
  end.

(** [o[k]] for a [str] key [k] *)
Definition getitem (o : json) (k : pystr) : outcome json :=
  match o with
  | JObj d =>
      match dict_get d k with
      | Some v => Ret v
      | None => Raise (key_error k)
      end
  | JArr _ => Raise (u "list indices must be integers or slices, not str")
  | JStr _ => Raise (u "string indices must be integers, not 'str'")
  | _ => Raise (u "'" ++ type_name o ++ u "' object is not subscriptable")
  end.

(** [s.strip()] on whatever [s] is at run time *)
Definition strip (v : json) : outcome pystr :=
  match v with
  | JStr s => Ret (PyStr.strip s)
  | _ => Raise (no_attribute v (u "strip"))
  end.

(** The items a [for] loop over [v] visits. *)
Definition iter (v : json) : outcome (list json) :=
  match v with
  | JArr l => Ret l
  | JStr s => Ret (List.map (fun c => JStr [c]) s)
  | JObj d => Ret (List.map (fun kv => JStr (fst kv)) d)
  | _ => Raise (not_iterable v)
  end.

(** [a or b], with [b] already a value *)
Definition or_else (a b : json) : json := if truthy a then a else b.

End Py.

(* ===================================================================== *)
(** * Effects: instance state, HTTP, signals, exceptions                  *)
(* ===================================================================== *)

(** The arguments of one [session.get(url, params=..., timeout=...)]. *)
Record request : Type := {
  url : pystr;
  params : list (pystr * json);
  timeout : Z
}.

(** What the code reads from a [requests.Response]: [status_code] and the
    result of [response.json()], which raises on a body that is not JSON. *)
Record response : Type := {
  status_code : Z;
  json_body : outcome json
}.

(** The remote side: the [n]-th request of a run either raises (timeout,
    connection error) or yields a response. *)
Definition network : Type := nat -> request -> outcome response.

(** The two signals of [SearchThread]. *)
Inductive signal : Type :=
| search_complete (payload : json)
| search_error (msg : pystr).

Record world : Type := {
  cache : gmap pystr json;      (* FoodDatabase.cache *)
  requests : list request;      (* HTTP requests issued so far *)
  emitted : list signal         (* signals emitted so far *)
}.

Class Monad (m : Type -> Type) : Type := {
  ret : forall {A}, A -> m A;
  bind : forall {A B}, m A -> (A -> m B) -> m B
}.

Notation "'let*' x ':=' c 'in' k" := (bind c (fun x => k))
  (at level 10, x name, c at level 200, k at level 200).

#[export] Instance outcome_monad : Monad outcome := {
  ret := fun A a => Ret a;
  bind := fun A B c k =>
    match c with
    | Ret a => k a
    | Raise e => Raise e
    end
}.

(** Computations of the client and the worker: state changes made before
    an exception is raised stay. *)
Definition M (A : Type) : Type := world -> outcome A * world.

#[export] Instance M_monad : Monad M := {
  ret := fun A a w => (Ret a, w);
  bind := fun A B c k w =>
    match c w with
    | (Ret a, w') => k a w'
    | (Raise e, w') => (Raise e, w')
    end
}.

Definition lift {A} (c : outcome A) : M A := fun w => (c, w).

Definition raise {A} (msg : pystr) : M A := fun w => (Raise msg, w).

(** [try: c  except Exception as e: h(str(e))] *)
Definition try_except {A} (c : M A) (h : pystr -> M A) : M A :=
  fun w =>
    match c w with
    | (Ret a, w') => (Ret a, w')
    | (Raise e, w') => h e w'
    end.

Definition cache_lookup (k : pystr) : M (option json) :=
  fun w => (Ret (cache w !! k), w).

Definition cache_store (k : pystr) (v : json) : M unit :=
  fun w => (Ret tt, {| cache := <[k := v]> (cache w);
                       requests := requests w;
                       emitted := emitted w |}).

Definition emit (s : signal) : M unit :=
  fun w => (Ret tt, {| cache := cache w;
                       requests := requests w;
                       emitted := emitted w ++ [s] |}).

Section Program.

Variable net : network.

(** [self.session.get(...)] *)
Definition session_get (r : request) : M response :=
  fun w => (net (length (requests w)) r,
            {| cache := cache w;
               requests := requests w ++ [r];
               emitted := emitted w |}).

(** [response.json()] *)
Definition response_json (r : response) : M json := lift (json_body r).

(* ===================================================================== *)
(** * class FoodDatabase                                                  *)
(* ===================================================================== *)

Definition NOT_FOUND : json := JObj [(u "status", JInt 0); (u "product", JNull)].

Definition barcode_request (barcode : pystr) : request :=
  {| url := u "https://world.openfoodfacts.org/api/v0/product/"
              ++ barcode ++ u ".json";
     params := [];
     timeout := 8 |}.

Definition get_product_by_barcode (barcode : pystr) : M json :=
  let* hit := cache_lookup barcode in
  match hit with
  | Some data => ret data
  | None =>
      try_except
        (let* response := session_get (barcode_request barcode) in
         if status_code response =? 200 then
           let* data := response_json response in
           let* status := lift (Py.get data (u "status") JNull) in
           if Py.eq_one status then
             let* product := lift (Py.get data (u "product") JNull) in
             if Py.truthy product then
               let* _ := cache_store barcode data in
               ret data
             else ret NOT_FOUND
           else ret NOT_FOUND
         else ret NOT_FOUND)
        (fun e => raise (u "Ошибка: " ++ e))
  end.

Definition search_request (query : pystr) (page_size : Z) : request :=
  {| url := u "https://world.openfoodfacts.org/cgi/search.pl";
     params := [(u "search_terms", JStr query);
                (u "json", JInt 1);
                (u "page_size", JInt page_size)];
     timeout := 10 |}.

(** The condition [product.get('product_name') or product.get('brands')]. *)
Definition has_name_or_brand (product : json) : outcome bool :=
  let* name := Py.get product (u "product_name") JNull in
  if Py.truthy name then ret true
  else
    let* brands := Py.get product (u "brands") JNull in
    ret (Py.truthy brands).

(** The [for product in ...] loop of [search_products]. *)
Fixpoint valid_loop (items valid_products : list json) : outcome (list json) :=
  match items with
  | [] => ret valid_products
  | product :: rest =>
      let* keep := has_name_or_brand product in
      if (keep : bool) then valid_loop rest (valid_products ++ [product])
      else valid_loop rest valid_products
  end.

Definition search_products (query : pystr) (page_size : Z) : M json :=
  try_except
    (let* response := session_get (search_request query page_size) in
     let* data := response_json response in
     let* products := lift (Py.get data (u "products") (JArr [])) in
     let* items := lift (Py.iter products) in
     let* valid_products := lift (valid_loop items []) in
     ret (JObj [(u "products", JArr valid_products)]))
    (fun e => raise (u "Ошибка поиска: " ++ e)).

(** One [if nutriments.get(src): nutrition_data[dst] = nutriments[src]]. *)
Definition copy_if_truthy (nutriments : json) (src dst : pystr)
    (nutrition_data : list (pystr * json)) : outcome (list (pystr * json)) :=
  let* probe := Py.get nutriments src JNull in
  if Py.truthy probe then
    let* v := Py.getitem nutriments src in
    ret (Py.dict_set nutrition_data dst v)
  else ret nutrition_data.

Definition extract_nutrition (nutriments : json) : outcome json :=
  if negb (Py.truthy nutriments) then ret (JObj [])
  else
    let* nutrition_data := copy_if_truthy nutriments (u "energy-kcal_100g") (u "kcal_100g") [] in
    let* nutrition_data := copy_if_truthy nutriments (u "proteins_100g") (u "protein_100g") nutrition_data in
    let* nutrition_data := copy_if_truthy nutriments (u "fat_100g") (u "fat_100g") nutrition_data in
    let* nutrition_data := copy_if_truthy nutriments (u "carbohydrates_100g") (u "carbs_100g") nutrition_data in
    ret (JObj nutrition_data).

Definition UNKNOWN_PRODUCT : pystr := Eval vm_compute in u "Неизвестный продукт".
Definition DASH : pystr := Eval vm_compute in u "—".

(** [if not s or s == 'null': s = placeholder] *)
Definition or_placeholder (s placeholder : pystr) : pystr :=
  if str_eqb s [] || str_eqb s (u "null") then placeholder else s.

Definition clean_product_data (product : json) : outcome json :=
  if negb (Py.truthy product) then ret (JObj [])
  else
    let* raw_name := Py.get product (u "product_name") (JStr []) in
    let* name := Py.strip raw_name in
    let name := or_placeholder name UNKNOWN_PRODUCT in
    let* raw_brand := Py.get product (u "brands") (JStr []) in
    let* brand := Py.strip raw_brand in
    let brand := or_placeholder brand DASH in
    let* code := Py.get product (u "code") JNull in
    let* quantity := Py.get product (u "quantity") JNull in
    let* nutriments := Py.get product (u "nutriments") (JObj []) in
    ret (JObj [(u "name", JStr name);
               (u "brand", JStr brand);
               (u "barcode", Py.or_else code (JStr DASH));
               (u "quantity", Py.or_else quantity (JStr DASH));
               (u "nutriments", nutriments)]).

(* ===================================================================== *)
(** * class SearchThread                                                  *)
(* ===================================================================== *)

Definition ENTER_QUERY : pystr := Eval vm_compute in u "Введите запрос".

(** The test [query.isdigit() and len(query) >= 8]. *)
Definition is_barcode (query : pystr) : bool :=
  isdigit query && (8 <=? len query).

(** The [if]/[else] that fills [products]. *)
Definition candidates (query : pystr) : M json :=
  if is_barcode query then
    let* result := get_product_by_barcode query in
    let* status := lift (Py.get result (u "status") JNull) in
    if Py.eq_one status then
      let* product := lift (Py.get result (u "product") JNull) in
      if Py.truthy product then
        let* product := lift (Py.getitem result (u "product")) in
        ret (JArr [product])
      else ret (JArr [])
    else ret (JArr [])
  else
    let* result := search_products query 25 in
    lift (Py.get result (u "products") (JArr [])).

(** The [for product in products] loop of [run]. *)
Fixpoint clean_loop (items cleaned_products : list json) : outcome (list json) :=
  match items with
  | [] => ret cleaned_products
  | product :: rest =>
      let* cleaned := clean_product_data product in
      let* name := Py.getitem cleaned (u "name") in
      if negb (Py.eq_str name UNKNOWN_PRODUCT)
      then clean_loop rest (cleaned_products ++ [cleaned])
      else clean_loop rest cleaned_products
  end.

(** The body of the [try] in [run]. *)
Definition run_body (self_query : pystr) : M unit :=
  let query := strip self_query in
  if str_eqb query [] then
    emit (search_error ENTER_QUERY)
  else
    let* products := candidates query in
    let* items := lift (Py.iter products) in
    let* cleaned_products := lift (clean_loop items []) in
    emit (search_complete (JObj [(u "products", JArr cleaned_products)])).

Definition run (self_query : pystr) : M unit :=
  try_except (run_body self_query) (fun e => emit (search_error e)).

End Program.

(* ===================================================================== *)
(** * Vocabulary of the properties                                        *)
(* ===================================================================== *)

(** The value [nutriments.get(src)] when it is truthy. *)
Definition truthy_at (d : list (pystr * json)) (src : pystr) : option json :=
  match Py.dict_get d src with
  | Some v => if Py.truthy v then Some v else None
  | None => None
  end.

(** Field [dst] of the summary [out] is there exactly when key [src] of
    [d] is there with a truthy value, and then carries that value. *)
Definition field_iff (d out : list (pystr * json)) (src dst : pystr) : Prop :=
  forall v, Py.dict_get out dst = Some v <->
            Py.dict_get d src = Some v /\ Py.truthy v = true.

(** A field that [clean_product_data] can trim: absent, or a [str]. *)
Definition is_text (field : option json) : bool :=
  match field with
  | None | Some (JStr _) => true
  | Some _ => false
  end.

(** The text of such a field, [''] when absent. *)
Definition text_of (field : option json) : pystr :=
  match field with
  | Some (JStr s) => s
  | _ => []
  end.

(** [out] is the trimmed text [t], or the placeholder [p] when [t] is
    empty or the literal [null]. *)
Definition placeholder_rule (t p out : pystr) : Prop :=
  (t = [] \/ t = u "null" -> out = p) /\
  (t <> [] -> t <> u "null" -> out = t).

(** [out] is the field when it is there and truthy, the dash otherwise. *)
Definition default_rule (field : option json) (out : json) : Prop :=
  match field with
  | None => out = JStr DASH
  | Some v => out = if Py.truthy v then v else JStr DASH
  end.

(** The key under which [clean_product_data] reads what it returns under
    [k]. *)
Definition raw_key (k : pystr) : pystr :=
  if str_eqb k (u "name") then u "product_name"
  else if str_eqb k (u "brand") then u "brands"
  else if str_eqb k (u "barcode") then u "code"
  else k.

(** A record of [clean_product_data] read back as a raw product: the same
    field values under the raw keys. *)
Definition as_raw (r : json) : json :=
  match r with
  | JObj d => JObj (List.map (fun kv => (raw_key (fst kv), snd kv)) d)
  | _ => r
  end.

(** The world after two consecutive [get_product_by_barcode(b)] calls. *)
Definition two_lookups (net : network) (b : pystr) (w : world) : world :=
  snd (get_product_by_barcode net b (snd (get_product_by_barcode net b w))).

(** The two calls issue at most one HTTP request in total. *)
Definition at_most_one_call (net : network) (b : pystr) (w : world) : Prop :=
  (length (requests (two_lookups net b w)) <= length (requests w) + 1)%nat.

(** A lookup that missed the cache, got HTTP 200 with a document whose
    [status] equals 1 and whose [product] is truthy, stored the document
    under [b] and returned it. *)
Definition successful_lookup (net : network) (b : pystr) (w : world)
    (r1 : outcome json) (w1 : world) : Prop :=
  cache w !! b = None /\
  exists resp data st product,
    net (length (requests w)) (barcode_request b) = Ret resp /\
    status_code resp = 200 /\
    json_body resp = Ret data /\
    Py.get data (u "status") JNull = Ret st /\ Py.eq_one st = true /\
    Py.get data (u "product") JNull = Ret product /\ Py.truthy product = true /\
    cache w1 = <[b := data]> (cache w) /\
    r1 = Ret data.

(** ** Sample data *)

Definition empty_world : world := {| cache := ∅; requests := []; emitted := [] |}.

Definition milk_raw : list (pystr * json) :=
  [(u "product_name", JStr (u " Milk "))].

Definition milk_record : json :=
  JObj [(u "name", JStr (u "Milk")); (u "brand", JStr DASH);
        (u "barcode", JStr DASH); (u "quantity", JStr DASH);
        (u "nutriments", JObj [])].

Definition placeholder_record : json :=
  JObj [(u "name", JStr UNKNOWN_PRODUCT); (u "brand", JStr DASH);
        (u "barcode", JStr DASH); (u "quantity", JStr DASH);
        (u "nutriments", JObj [])].

Definition acme_raw : list (pystr * json) :=
  [(u "product_name", JStr []); (u "brands", JStr (u "Acme"))].

Definition apple_nutriments : list (pystr * json) :=
  [(u "energy-kcal_100g", JInt 52); (u "fat_100g", JInt 0)].

(** A provider that knows no product. *)
Definition net_unknown : network :=
  fun _ _ => Ret {| status_code := 200; json_body := Ret NOT_FOUND |}.

Definition found_doc : json :=
  JObj [(u "status", JInt 1); (u "product", JObj milk_raw)].

(** A provider that knows every barcode as the same product. *)
Definition net_found : network :=
  fun _ _ => Ret {| status_code := 200; json_body := Ret found_doc |}.

(** The world after one successful lookup of [b] from [empty_world]. *)
Definition found_world (b : pystr) : world :=
  {| cache := <[b := found_doc]> ∅;
     requests := [barcode_request b];
     emitted := [] |}.

(** A provider that never answers in time. *)
Definition net_timeout : network := fun _ _ => Raise (u "Read timed out.").

(** A provider whose search finds one product with a brand and no name. *)
Definition net_acme : network :=
  fun _ _ => Ret {| status_code := 200;
                    json_body :=
                      Ret (JObj [(u "products", JArr [JObj acme_raw])]) |}.

(** ** Vocabulary of the further properties *)

Definition is_dict (v : json) : bool :=
  match v with
  | JObj _ => true
  | _ => false
  end.

(** The world after one more HTTP request, and after one more signal. *)
Definition with_request (w : world) (r : request) : world :=
  {| cache := cache w; requests := requests w ++ [r]; emitted := emitted w |}.

Definition with_signal (w : world) (s : signal) : world :=
  {| cache := cache w; requests := requests w; emitted := emitted w ++ [s] |}.

(** The filter of [search_products] on a product that is a [dict]. *)
Definition keeps (d : list (pystr * json)) : bool :=
  Py.truthy (default JNull (Py.dict_get d (u "product_name")))
  || Py.truthy (default JNull (Py.dict_get d (u "brands"))).

(** A raw product whose [product_name] and [brands] are absent or strings. *)
Definition text_typed (d : list (pystr * json)) : bool :=
  is_text (Py.dict_get d (u "product_name"))
  && is_text (Py.dict_get d (u "brands")).

(** The name and the record [clean_product_data] gives such a product. *)
Definition name_of (d : list (pystr * json)) : pystr :=
  or_placeholder (strip (text_of (Py.dict_get d (u "product_name"))))
                 UNKNOWN_PRODUCT.

Definition record_of (d : list (pystr * json)) : json :=
  JObj [(u "name", JStr (name_of d));
        (u "brand",
          JStr (or_placeholder (strip (text_of (Py.dict_get d (u "brands")))) DASH));
        (u "barcode",
          Py.or_else (default JNull (Py.dict_get d (u "code"))) (JStr DASH));
        (u "quantity",
          Py.or_else (default JNull (Py.dict_get d (u "quantity"))) (JStr DASH));
        (u "nutriments", default (JObj []) (Py.dict_get d (u "nutriments")))].

(** The product is listed in the result of [run]: its name is not the
    placeholder. *)
Definition listed (d : list (pystr * json)) : bool :=
  negb (str_eqb (name_of d) UNKNOWN_PRODUCT).

(** A record as the results table reads it: the five fields, with text in
    [name] and [brand], a name that is not the placeholder, and truthy
    [barcode] and [quantity]. *)
Definition table_record (r : json) : Prop :=
  exists name brand barcode quantity nutriments,
    r = JObj [(u "name", JStr name); (u "brand", JStr brand);
              (u "barcode", barcode); (u "quantity", quantity);
              (u "nutriments", nutriments)] /\
    name <> [] /\ name <> UNKNOWN_PRODUCT /\ brand <> [] /\
    Py.truthy barcode = true /\ Py.truthy quantity = true.

(** The signal [run] ends with, given what filled [products]. *)
Definition signal_of (products : outcome json) : signal :=
  match products with
  | Ret products =>
      match Py.iter products with
      | Ret items =>
          match clean_loop items [] with
          | Ret cleaned_products =>
              search_complete (JObj [(u "products", JArr cleaned_products)])
          | Raise e => search_error e
          end
      | Raise e => search_error e
      end
  | Raise e => search_error e
  end.

(** The same provider with another HTTP status on every response. *)
Definition with_status (net : network) (sc : Z) : network :=
  fun n r =>
    match net n r with
    | Ret resp => Ret {| status_code := sc; json_body := json_body resp |}
    | Raise e => Raise e
    end.

(** ** More sample data *)

Definition yogurt_raw : list (pystr * json) :=
  [(u "product_name", JStr (u "Yogurt ")); (u "brands", JStr (u "Acme"));
   (u "code", JStr (u "12345678"));
   (u "nutriments", JObj apple_nutriments)].

(** A provider whose search finds a nameless product and a yogurt. *)
Definition net_two : network :=
  fun _ _ => Ret {| status_code := 200;
                    json_body :=
                      Ret (JObj [(u "products",
                                  JArr [JObj acme_raw; JObj yogurt_raw])]) |}.

(** A provider whose product list has a [null] entry. *)
Definition net_null_entry : network :=
  fun _ _ => Ret {| status_code := 200;
                    json_body :=
                      Ret (JObj [(u "products",
                                  JArr [JObj yogurt_raw; JNull])]) |}.

(** A provider that is down: HTTP 503 with a body that is not JSON. *)
Definition net_down : network :=
  fun _ _ => Ret {| status_code := 503;
                    json_body := Raise (u "Expecting value: line 1 column 1 (char 0)") |}.

(** A provider that answers a search with a JSON list. *)
Definition net_list : network :=
  fun _ _ => Ret {| status_code := 200; json_body := Ret (JArr []) |}.

(** One step of [extract_nutrition] and the summary it builds for a
    mapping. *)
Definition add_field (d : list (pystr * json)) (src dst : pystr)
    (acc : list (pystr * json)) : list (pystr * json) :=
  match truthy_at d src with
  | Some v => Py.dict_set acc dst v
  | None => acc
  end.

Definition summary_of (d : list (pystr * json)) : list (pystr * json) :=
  add_field d (u "carbohydrates_100g") (u "carbs_100g")
    (add_field d (u "fat_100g") (u "fat_100g")
      (add_field d (u "proteins_100g") (u "protein_100g")
        (add_field d (u "energy-kcal_100g") (u "kcal_100g") []))).

(* ===================================================================== *)
(** * Strings and dictionaries                                            *)
(* ===================================================================== *)

(** Evaluate comparisons between string literals. *)
Ltac eval_str_eqb :=
  repeat match goal with
  | |- context [str_eqb (u ?a) (u ?b)] =>
      let r := eval vm_compute in (str_eqb (u a) (u b)) in
      change (str_eqb (u a) (u b)) with r
  end.

Section Strings.

Lemma str_eqb_eq a b : str_eqb a b = true <-> a = b.
Proof.
  revert b; induction a as [|x a IH]; intros [|y b]; simpl; split; try done.
  - intros [Hx Hab]%andb_true_iff. apply N.eqb_eq in Hx. apply IH in Hab. congruence.
  - intros [= -> ->]. rewrite N.eqb_refl. simpl. by apply IH.
Qed.

Lemma str_eqb_refl a : str_eqb a a = true.
Proof. by apply str_eqb_eq. Qed.

Lemma lstrip_idem s : lstrip (lstrip s) = lstrip s.
Proof.
  induction s as [|c s IH]; simpl; [done|].
  destruct (isspace_char c) eqn:E; [done|]. simpl. by rewrite E.
Qed.

(** What [lstrip] leaves is empty or starts with a character that is not
    white space. *)
Lemma lstrip_cases s :
  lstrip s = [] \/ exists c t, lstrip s = c :: t /\ isspace_char c = false.
Proof.
  induction s as [|c s IH]; simpl; [by left|].
  destruct (isspace_char c) eqn:E; [done|]. right. by exists c, s.
Qed.

Lemma lstrip_app_nonspace a c b :
  isspace_char c = false -> lstrip (a ++ c :: b) = lstrip a ++ c :: b.
Proof.
  intros Hc. induction a as [|x a IH]; simpl.
  - by rewrite Hc.
  - by destruct (isspace_char x).
Qed.

Lemma rstrip_cons_nonspace c t :
  isspace_char c = false -> rstrip (c :: t) = c :: rstrip t.
Proof.
  intros Hc. unfold rstrip. simpl.
  rewrite lstrip_app_nonspace by done.
  by rewrite rev_app_distr.
Qed.

Lemma rstrip_idem s : rstrip (rstrip s) = rstrip s.
Proof. unfold rstrip. by rewrite rev_involutive, lstrip_idem. Qed.

Lemma strip_idem s : strip (strip s) = strip s.
Proof.
  unfold strip. destruct (lstrip_cases s) as [->|(c & t & -> & Hc)]; [done|].
  rewrite rstrip_cons_nonspace by done. simpl. rewrite Hc.
  rewrite rstrip_cons_nonspace by done. by rewrite rstrip_idem.
Qed.

Lemma strip_nonempty_eqb q : strip q <> [] -> str_eqb (strip q) [] = false.
Proof.
  intros H. destruct (str_eqb (strip q) []) eqn:E; [|done]. by apply str_eqb_eq in E.
Qed.

End Strings.

Section Dicts.

Lemma dict_get_set d k v k' :
  Py.dict_get (Py.dict_set d k v) k' =
  if str_eqb k k' then Some v else Py.dict_get d k'.
Proof.
  induction d as [|[k0 v0] d IH]; simpl.
  - done.
  - destruct (str_eqb k0 k) eqn:E0; simpl.
    + apply str_eqb_eq in E0 as ->. by destruct (str_eqb k k').
    + rewrite IH. destruct (str_eqb k0 k') eqn:E1; [|done].
      apply str_eqb_eq in E1 as ->. destruct (str_eqb k k') eqn:E2; [|done].
      apply str_eqb_eq in E2 as ->. by rewrite str_eqb_refl in E0.
Qed.

Lemma or_else_truthy a b : Py.truthy b = true -> Py.truthy (Py.or_else a b) = true.
Proof. intros Hb. unfold Py.or_else. by destruct (Py.truthy a) eqn:E. Qed.

Lemma or_else_idem a b :
  Py.truthy b = true -> Py.or_else (Py.or_else a b) b = Py.or_else a b.
Proof.
  intros Hb. unfold Py.or_else at 1. by rewrite or_else_truthy.
Qed.

Lemma or_else_rule field :
  default_rule field (Py.or_else (default JNull field) (JStr DASH)).
Proof. by destruct field. Qed.

End Dicts.

(* ===================================================================== *)
(** * extract_nutrition                                                   *)
(* ===================================================================== *)

Section Nutrition.

Lemma copy_if_truthy_dict d src dst acc :
  copy_if_truthy (JObj d) src dst acc =
  Ret (match truthy_at d src with
       | Some v => Py.dict_set acc dst v
       | None => acc
       end).
Proof.
  unfold copy_if_truthy, truthy_at, Py.get, Py.getitem. cbn.
  destruct (Py.dict_get d src) as [v|]; cbn; [|done].
  by destruct (Py.truthy v).
Qed.

Lemma copy_lookup (o : option json) acc dst k :
  Py.dict_get (match o with Some v => Py.dict_set acc dst v | None => acc end) k
  = if str_eqb dst k
    then match o with Some v => Some v | None => Py.dict_get acc k end
    else Py.dict_get acc k.
Proof.
  destruct o as [v|]; [|by destruct (str_eqb dst k)].
  by rewrite dict_get_set.
Qed.

Lemma field_iff_truthy_at d out src dst :
  Py.dict_get out dst = truthy_at d src -> field_iff d out src dst.
Proof.
  unfold field_iff. intros -> v. unfold truthy_at.
  destruct (Py.dict_get d src) as [w|]; [|intuition congruence].
  destruct (Py.truthy w) eqn:Hw; intuition congruence.
Qed.

(** C3. On every mapping [extract_nutrition] returns, without raising, a
    summary in which each of [kcal_100g], [protein_100g], [fat_100g] and
    [carbs_100g] is present exactly when its source key
    ([energy-kcal_100g], [proteins_100g], [fat_100g],
    [carbohydrates_100g]) is present with a truthy value, and then holds
    that value; the summary has no other key.  So a missing source key
    leaves the field absent, and no field of the summary is zero or null. *)
Theorem extract_nutrition_fields (d : list (pystr * json)) :
  exists out,
    extract_nutrition (JObj d) = Ret (JObj out) /\
    field_iff d out (u "energy-kcal_100g") (u "kcal_100g") /\
    field_iff d out (u "proteins_100g") (u "protein_100g") /\
    field_iff d out (u "fat_100g") (u "fat_100g") /\
    field_iff d out (u "carbohydrates_100g") (u "carbs_100g") /\
    (forall k, k <> u "kcal_100g" -> k <> u "protein_100g" ->
               k <> u "fat_100g" -> k <> u "carbs_100g" ->
               Py.dict_get out k = None).
Proof.
  unfold extract_nutrition.
  destruct (Py.truthy (JObj d)) eqn:Ht; cbn [negb].
  - rewrite copy_if_truthy_dict. cbn [bind outcome_monad ret].
    rewrite copy_if_truthy_dict. cbn [bind outcome_monad ret].
    rewrite copy_if_truthy_dict. cbn [bind outcome_monad ret].
    rewrite copy_if_truthy_dict. cbn [bind outcome_monad ret].
    eexists. split; [reflexivity|].
    split; [|split; [|split; [|split]]].
    1-4: apply field_iff_truthy_at; rewrite !copy_lookup; eval_str_eqb;
         cbn [Py.dict_get]; by repeat case_match.
    intros k H1 H2 H3 H4. rewrite !copy_lookup. cbn [Py.dict_get].
    repeat case_match; try done;
      match goal with
      | H : str_eqb _ k = true |- _ => apply str_eqb_eq in H; congruence
      end.
  - destruct d; [|done]. exists []. cbn [ret outcome_monad].
    split; [done|]. split; [|split; [|split; [|split]]]; try done;
      intros v; cbn; intuition congruence.
Qed.

Lemma extract_nutrition_fields_witness :
  exists out,
    extract_nutrition (JObj apple_nutriments) = Ret (JObj out) /\
    Py.dict_get out (u "kcal_100g") = Some (JInt 52) /\
    Py.dict_get out (u "fat_100g") = None /\
    Py.dict_get out (u "protein_100g") = None.
Proof.
  destruct (extract_nutrition_fields apple_nutriments)
    as (out & Hout & Hkcal & Hprot & Hfat & _).
  exists out. split; [exact Hout|]. split; [|split].
  - apply Hkcal. split; reflexivity.
  - destruct (Py.dict_get out (u "fat_100g")) as [v|] eqn:E; [|reflexivity].
    apply Hfat in E as [[= <-] Hv]. discriminate Hv.
  - destruct (Py.dict_get out (u "protein_100g")) as [v|] eqn:E; [|reflexivity].
    apply Hprot in E as [Hv _]. discriminate Hv.
Defined.

End Nutrition.

(* ===================================================================== *)
(** * clean_product_data                                                  *)
(* ===================================================================== *)

Section Normalisation.

Lemma or_placeholder_nonempty s p : p <> [] -> or_placeholder s p <> [].
Proof.
  intros Hp. unfold or_placeholder.
  destruct (str_eqb s []) eqn:E; cbn [orb]; [done|].
  destruct (str_eqb s (u "null")); [done|].
  intros ->. discriminate E.
Qed.

Lemma or_placeholder_idem s p :
  str_eqb p [] = false -> str_eqb p (u "null") = false ->
  or_placeholder (or_placeholder s p) p = or_placeholder s p.
Proof.
  intros H1 H2. unfold or_placeholder.
  destruct (str_eqb s [] || str_eqb s (u "null")) eqn:E.
  - by rewrite H1, H2.
  - by rewrite E.
Qed.

Lemma strip_or_placeholder s p :
  strip p = p -> strip (or_placeholder (strip s) p) = or_placeholder (strip s) p.
Proof.
  intros Hp. unfold or_placeholder.
  destruct (_ || _); [done|apply strip_idem].
Qed.

Lemma or_placeholder_rule t p : placeholder_rule t p (or_placeholder t p).
Proof.
  unfold placeholder_rule, or_placeholder. split.
  - intros [->| ->]; [done|]. by rewrite str_eqb_refl, orb_true_r.
  - intros H1 H2.
    destruct (str_eqb t []) eqn:E1; [by apply str_eqb_eq in E1|].
    destruct (str_eqb t (u "null")) eqn:E2; [by apply str_eqb_eq in E2|done].
Qed.

Lemma strip_text field :
  is_text field = true ->
  Py.strip (default (JStr []) field) = Ret (strip (text_of field)).
Proof. by destruct field as [[]|]. Qed.

(** On a non-empty [dict] only the two [strip] calls can raise. *)
Lemma clean_product_data_dict d :
  d <> [] ->
  clean_product_data (JObj d) =
    let* name := Py.strip (default (JStr []) (Py.dict_get d (u "product_name"))) in
    let* brand := Py.strip (default (JStr []) (Py.dict_get d (u "brands"))) in
    Ret (JObj [(u "name", JStr (or_placeholder name UNKNOWN_PRODUCT));
               (u "brand", JStr (or_placeholder brand DASH));
               (u "barcode",
                 Py.or_else (default JNull (Py.dict_get d (u "code"))) (JStr DASH));
               (u "quantity",
                 Py.or_else (default JNull (Py.dict_get d (u "quantity"))) (JStr DASH));
               (u "nutriments", default (JObj []) (Py.dict_get d (u "nutriments")))]).
Proof.
  intros Hd. unfold clean_product_data.
  replace (Py.truthy (JObj d)) with true by (by destruct d).
  cbn [negb Py.get bind outcome_monad ret].
  destruct (Py.strip _) as [name|e]; [|done].
  by destruct (Py.strip _) as [brand|e].
Qed.

Lemma clean_product_data_falsy p :
  Py.truthy p = false -> clean_product_data p = Ret (JObj []).
Proof. intros H. unfold clean_product_data. by rewrite H. Qed.

(** Whatever [clean_product_data] returns is the empty [dict] or a record
    of the five fields. *)
Lemma clean_product_data_ret p r :
  clean_product_data p = Ret r ->
  r = JObj [] \/
  exists s b c q n,
    r = JObj [(u "name", JStr (or_placeholder (strip s) UNKNOWN_PRODUCT));
              (u "brand", JStr (or_placeholder (strip b) DASH));
              (u "barcode", Py.or_else c (JStr DASH));
              (u "quantity", Py.or_else q (JStr DASH));
              (u "nutriments", n)].
Proof.
  destruct (Py.truthy p) eqn:Ht.
  - destruct p as [| | | | |l|d];
      try (unfold clean_product_data; rewrite Ht; discriminate).
    destruct d as [|kv d]; [discriminate|].
    rewrite clean_product_data_dict by done.
    destruct (default (JStr []) (Py.dict_get (kv :: d) (u "product_name")))
      as [| | | |s| |]; try discriminate.
    destruct (default (JStr []) (Py.dict_get (kv :: d) (u "brands")))
      as [| | | |b| |]; try discriminate.
    cbn [Py.strip bind outcome_monad]. intros [= <-]. right. by do 5 eexists.
  - rewrite clean_product_data_falsy by done. intros [= <-]. by left.
Qed.

(** A [product_name] that is JSON [null] is not trimmed: [None.strip()]
    raises. *)
Example clean_product_data_null_name_raises :
  clean_product_data (JObj [(u "product_name", JNull)])
    = Raise (u "'NoneType' object has no attribute 'strip'").
Proof. reflexivity. Qed.

(** C7. For a raw product that is a non-empty mapping whose [product_name]
    and [brands] are absent or strings, [clean_product_data] returns the
    record of the five fields; its name and brand are non-empty and
    whitespace-trimmed; each is the trimmed source text, or the placeholder
    ([UNKNOWN_PRODUCT] for the name, [DASH] for the brand) when that text is
    absent, blank or the literal [null]; barcode and quantity are the
    source [code] and [quantity], or [DASH] when these are absent (or
    falsy); [nutriments] is the source mapping unchanged, [{}] when
    absent. *)
Theorem clean_product_data_record (d : list (pystr * json)) :
  d <> [] ->
  is_text (Py.dict_get d (u "product_name")) = true ->
  is_text (Py.dict_get d (u "brands")) = true ->
  exists name brand barcode quantity nutriments,
    clean_product_data (JObj d) =
      Ret (JObj [(u "name", JStr name); (u "brand", JStr brand);
                 (u "barcode", barcode); (u "quantity", quantity);
                 (u "nutriments", nutriments)]) /\
    name <> [] /\ brand <> [] /\
    strip name = name /\ strip brand = brand /\
    placeholder_rule (strip (text_of (Py.dict_get d (u "product_name"))))
                     UNKNOWN_PRODUCT name /\
    placeholder_rule (strip (text_of (Py.dict_get d (u "brands")))) DASH brand /\
    default_rule (Py.dict_get d (u "code")) barcode /\
    default_rule (Py.dict_get d (u "quantity")) quantity /\
    nutriments = default (JObj []) (Py.dict_get d (u "nutriments")).
Proof.
  intros Hd Hn Hb. rewrite clean_product_data_dict by done.
  rewrite !strip_text by done. cbn [bind outcome_monad].
  do 5 eexists. split; [reflexivity|].
  split; [by apply or_placeholder_nonempty|].
  split; [by apply or_placeholder_nonempty|].
  split; [by apply strip_or_placeholder|].
  split; [by apply strip_or_placeholder|].
  split; [apply or_placeholder_rule|].
  split; [apply or_placeholder_rule|].
  split; [apply or_else_rule|].
  split; [apply or_else_rule|done].
Qed.

Lemma clean_product_data_record_witness :
  exists name brand barcode quantity nutriments,
    clean_product_data (JObj milk_raw) =
      Ret (JObj [(u "name", JStr name); (u "brand", JStr brand);
                 (u "barcode", barcode); (u "quantity", quantity);
                 (u "nutriments", nutriments)]) /\
    name = u "Milk" /\ brand = DASH.
Proof.
  destruct (clean_product_data_record milk_raw)
    as (name & brand & barcode & quantity & nutriments
        & H & _ & _ & _ & _ & Hn & Hb & _);
    [done | reflexivity | reflexivity |].
  exists name, brand, barcode, quantity, nutriments. split; [exact H|].
  split.
  - apply Hn; vm_compute; congruence.
  - apply Hb. left. reflexivity.
Defined.

(** C10. On a falsy raw product ([None], [{}], and likewise [''], [0],
    [[]], [False]) [clean_product_data] returns the empty mapping: no
    key is present in it, so none of the five record fields, and no
    placeholder. *)
Theorem clean_product_data_falsy_empty (product : json) :
  Py.truthy product = false ->
  exists r, clean_product_data product = Ret (JObj r) /\
            r = [] /\ forall k, Py.dict_get r k = None.
Proof.
  intros H. exists []. by rewrite clean_product_data_falsy.
Qed.

Lemma clean_product_data_falsy_empty_witness :
  exists r, clean_product_data JNull = Ret (JObj r) /\
            r = [] /\ forall k, Py.dict_get r k = None.
Proof. apply (clean_product_data_falsy_empty JNull). reflexivity. Defined.

(** C4 as stated does not hold: the record returned for a product named
    [Milk] is not a fixed point of [clean_product_data], which reads
    [product_name], [brands] and [code], keys the record does not have, and
    so falls back to the placeholders. *)
Lemma clean_product_data_not_idempotent :
  clean_product_data (JObj milk_raw) = Ret milk_record /\
  clean_product_data milk_record = Ret placeholder_record /\
  placeholder_record <> milk_record.
Proof. split; [reflexivity|]. split; [reflexivity|]. discriminate. Qed.

(** C4, amended.  Whatever [clean_product_data] returns, normalising a raw
    product that carries the same field values under the raw keys
    ([product_name], [brands], [code], [quantity], [nutriments]) returns
    the identical record. *)
Theorem clean_product_data_idempotent_as_raw (product r : json) :
  clean_product_data product = Ret r ->
  clean_product_data (as_raw r) = Ret r.
Proof.
  intros [->|(s & b & c & q & n & ->)]%clean_product_data_ret; [done|].
  unfold as_raw. cbn [List.map fst snd]. unfold raw_key. eval_str_eqb.
  rewrite clean_product_data_dict by done.
  cbn [Py.dict_get]. eval_str_eqb. cbn [default id Py.strip bind outcome_monad].
  rewrite !strip_or_placeholder by reflexivity.
  rewrite !or_placeholder_idem by reflexivity.
  by rewrite !or_else_idem by reflexivity.
Qed.

Lemma clean_product_data_idempotent_as_raw_witness :
  clean_product_data (JObj milk_raw) = Ret milk_record /\
  clean_product_data (as_raw milk_record) = Ret milk_record.
Proof.
  split; [reflexivity|].
  apply (clean_product_data_idempotent_as_raw (JObj milk_raw)).
  reflexivity.
Defined.

End Normalisation.

(* ===================================================================== *)
(** * The client and the worker against an arbitrary provider             *)
(* ===================================================================== *)

Ltac unfold_M :=
  unfold get_product_by_barcode, search_products, candidates, run, run_body,
    try_except, cache_lookup, cache_store, session_get, response_json,
    emit, lift, raise;
  cbn [bind ret M_monad].

Section WithNetwork.

Variable net : network.

(** ** get_product_by_barcode and search_products *)

Lemma gpb_hit b w data :
  cache w !! b = Some data -> get_product_by_barcode net b w = (Ret data, w).
Proof. intros H. unfold_M. by rewrite H. Qed.

Lemma gpb_emitted b w :
  emitted (snd (get_product_by_barcode net b w)) = emitted w.
Proof. unfold_M. repeat case_match; simplify_eq; done. Qed.

Lemma gpb_miss_requests b w :
  cache w !! b = None ->
  requests (snd (get_product_by_barcode net b w))
    = requests w ++ [barcode_request b].
Proof.
  intros H. unfold_M. rewrite H. repeat case_match; simplify_eq; done.
Qed.

Lemma gpb_requests b w :
  requests (snd (get_product_by_barcode net b w)) = requests w \/
  requests (snd (get_product_by_barcode net b w))
    = requests w ++ [barcode_request b].
Proof.
  destruct (cache w !! b) as [data|] eqn:H.
  - left. by rewrite (gpb_hit _ _ data).
  - right. by apply gpb_miss_requests.
Qed.

(** The only path that writes the cache. *)
Lemma gpb_cache b w r1 w1 :
  get_product_by_barcode net b w = (r1, w1) ->
  cache w1 = cache w \/ successful_lookup net b w r1 w1.
Proof.
  unfold successful_lookup. unfold_M.
  destruct (cache w !! b) as [data|] eqn:H; [intros [= <- <-]; by left|].
  destruct (net _ _) as [resp|e] eqn:Hnet; [|intros [= <- <-]; by left].
  destruct (status_code resp =? 200) eqn:Hsc; [|intros [= <- <-]; by left].
  destruct (json_body resp) as [data|e] eqn:Hbody; [|intros [= <- <-]; by left].
  destruct (Py.get data (u "status") JNull) as [st|e] eqn:Hst;
    [|intros [= <- <-]; by left].
  destruct (Py.eq_one st) eqn:Hone; [|intros [= <- <-]; by left].
  destruct (Py.get data (u "product") JNull) as [p|e] eqn:Hp;
    [|intros [= <- <-]; by left].
  destruct (Py.truthy p) eqn:Htp; intros [= <- <-]; [|by left].
  right. split; [done|]. exists resp, data, st, p.
  apply Z.eqb_eq in Hsc. by repeat split.
Qed.

Lemma search_products_cache q n w :
  cache (snd (search_products net q n w)) = cache w.
Proof. unfold_M. repeat case_match; simplify_eq; done. Qed.

Lemma search_products_emitted q n w :
  emitted (snd (search_products net q n w)) = emitted w.
Proof. unfold_M. repeat case_match; simplify_eq; done. Qed.

Lemma search_products_requests q n w :
  requests (snd (search_products net q n w)) = requests w ++ [search_request q n].
Proof. unfold_M. repeat case_match; simplify_eq; done. Qed.

(** C2, amended.  Let the first of two consecutive lookups of [b] end in
    world [w1] with result [r1].  If [b] is then in the cache (the first
    call hit the cache or was a successful lookup), the second call returns
    the same document from the cache without any request, and the two calls
    issue at most one request in total.  If [b] is not in the cache (the
    first lookup was negative or failed), each of the two calls issues its
    own request.  The cache is written only by a successful barcode lookup
    (HTTP 200, [status == 1], truthy [product]), which stores the document
    under [b]; [search_products] never changes it. *)
Theorem barcode_cache_discipline b w r1 w1 :
  get_product_by_barcode net b w = (r1, w1) ->
  (is_Some (cache w1 !! b) ->
     get_product_by_barcode net b w1 = (r1, w1) /\ at_most_one_call net b w) /\
  (cache w1 !! b = None ->
     requests (two_lookups net b w) =
       requests w ++ [barcode_request b; barcode_request b]) /\
  (cache w1 = cache w \/ successful_lookup net b w r1 w1) /\
  (forall q n, cache (snd (search_products net q n w)) = cache w).
Proof.
  intros Hrun. split; [|split; [|split]].
  - intros [data Hdata].
    assert (Hr1 : r1 = Ret data).
    { destruct (gpb_cache _ _ _ _ Hrun)
        as [Hc|(_ & ? & d & ? & ? & _ & _ & _ & _ & _ & _ & _ & Hc & ->)].
      - rewrite Hc in Hdata. rewrite (gpb_hit _ _ data) in Hrun by done. congruence.
      - rewrite Hc, lookup_insert_eq in Hdata. congruence. }
    assert (H2 : get_product_by_barcode net b w1 = (r1, w1))
      by (rewrite Hr1; by apply gpb_hit).
    split; [done|]. unfold at_most_one_call, two_lookups.
    rewrite Hrun. cbn [snd]. rewrite H2. cbn [snd].
    pose proof (gpb_requests b w) as Hreq. rewrite Hrun in Hreq. cbn [snd] in Hreq.
    destruct Hreq as [-> | ->]; [lia|]. rewrite length_app. simpl. lia.
  - intros Hnone. unfold two_lookups. rewrite Hrun. cbn [snd].
    rewrite gpb_miss_requests by done.
    assert (Hw : cache w !! b = None).
    { destruct (gpb_cache _ _ _ _ Hrun) as [Hc|[? _]]; [by rewrite <- Hc|done]. }
    pose proof (gpb_miss_requests b w Hw) as Hreq. rewrite Hrun in Hreq.
    cbn [snd] in Hreq. rewrite Hreq. by rewrite <- app_assoc.
  - by apply gpb_cache.
  - intros q n. apply search_products_cache.
Qed.

(** ** candidates *)

Lemma candidates_emitted q w :
  emitted (snd (candidates net q w)) = emitted w.
Proof.
  unfold candidates. destruct (is_barcode q).
  - cbn [bind M_monad]. pose proof (gpb_emitted q w) as H.
    destruct (get_product_by_barcode net q w) as [[result|e] w1];
      cbn [snd] in *; [|done].
    unfold lift. repeat case_match; simplify_eq; done.
  - cbn [bind M_monad]. pose proof (search_products_emitted q 25 w) as H.
    destruct (search_products net q 25 w) as [[result|e] w1];
      cbn [snd] in *; [|done].
    unfold lift. done.
Qed.

Lemma candidates_barcode_raise q w e w1 :
  is_barcode q = true ->
  get_product_by_barcode net q w = (Raise e, w1) ->
  candidates net q w = (Raise e, w1).
Proof.
  intros Hb H. unfold candidates. rewrite Hb. cbn [bind M_monad]. by rewrite H.
Qed.

Lemma candidates_text_raise q w e w1 :
  is_barcode q = false ->
  search_products net q 25 w = (Raise e, w1) ->
  candidates net q w = (Raise e, w1).
Proof.
  intros Hb H. unfold candidates. rewrite Hb. cbn [bind M_monad]. by rewrite H.
Qed.

Lemma candidates_requests_text q w :
  is_barcode q = false ->
  requests (snd (candidates net q w)) = requests w ++ [search_request q 25].
Proof.
  intros Hb. unfold candidates. rewrite Hb. cbn [bind M_monad].
  pose proof (search_products_requests q 25 w) as H.
  by destruct (search_products net q 25 w) as [[result|e] w1].
Qed.

Lemma candidates_requests_barcode q w :
  is_barcode q = true ->
  requests (snd (candidates net q w))
    = requests (snd (get_product_by_barcode net q w)).
Proof.
  intros Hb. unfold candidates. rewrite Hb. cbn [bind M_monad].
  destruct (get_product_by_barcode net q w) as [[result|e] w1]; [|done].
  unfold lift. repeat case_match; simplify_eq; done.
Qed.

(** C5. The worker takes the barcode branch exactly when the query
    [isdigit()] and has length at least 8.  In that branch the only request
    it can issue is the barcode request of [get_product_by_barcode]; a
    document with [status == 1] and a truthy [product] gives the one-element
    list of that product, the not-found document gives the empty list.
    Otherwise it calls [search_products(query, 25)]: it issues exactly the
    search request with [page_size] 25 and takes the [products] of the
    result. *)
Theorem candidates_classification q w :
  (is_barcode q = true <-> isdigit q = true /\ 8 <= len q) /\
  (is_barcode q = true ->
     (requests (snd (candidates net q w)) = requests w \/
      requests (snd (candidates net q w)) = requests w ++ [barcode_request q]) /\
     (forall e w1, get_product_by_barcode net q w = (Raise e, w1) ->
        candidates net q w = (Raise e, w1)) /\
     (forall d st product w1,
        get_product_by_barcode net q w = (Ret (JObj d), w1) ->
        Py.dict_get d (u "status") = Some st -> Py.eq_one st = true ->
        Py.dict_get d (u "product") = Some product -> Py.truthy product = true ->
        candidates net q w = (Ret (JArr [product]), w1)) /\
     (forall w1, get_product_by_barcode net q w = (Ret NOT_FOUND, w1) ->
        candidates net q w = (Ret (JArr []), w1))) /\
  (is_barcode q = false ->
     requests (snd (candidates net q w)) = requests w ++ [search_request q 25] /\
     candidates net q w =
       match search_products net q 25 w with
       | (Ret result, w1) => (Py.get result (u "products") (JArr []), w1)
       | (Raise e, w1) => (Raise e, w1)
       end).
Proof.
  split; [|split].
  - unfold is_barcode. rewrite andb_true_iff, Z.leb_le. done.
  - intros Hb. split; [|split; [|split]].
    + rewrite candidates_requests_barcode by done. apply gpb_requests.
    + intros e w1. by apply candidates_barcode_raise.
    + intros d st product w1 Hget Hst Hone Hp Htp.
      unfold candidates. rewrite Hb. cbn [bind M_monad]. rewrite Hget.
      unfold lift, Py.get, Py.getitem. rewrite Hst. cbn [default id]. rewrite Hone.
      rewrite Hp. cbn [default id]. by rewrite Htp.
    + intros w1 Hget. unfold candidates. rewrite Hb. cbn [bind M_monad].
      by rewrite Hget.
  - intros Hb. split; [by apply candidates_requests_text|].
    unfold candidates. rewrite Hb. cbn [bind M_monad].
    by destruct (search_products net q 25 w) as [[result|e] w1].
Qed.

(** ** run *)

Lemma run_empty q w :
  strip q = [] -> run net q w = emit (search_error ENTER_QUERY) w.
Proof. intros Hq. unfold run, run_body, try_except. by rewrite Hq. Qed.

(** The ways out of the [try] body for a non-empty query. *)
Lemma run_body_nonempty q w :
  strip q <> [] ->
  run_body net q w =
    match candidates net (strip q) w with
    | (Ret products, w1) =>
        match Py.iter products with
        | Ret items =>
            match clean_loop items [] with
            | Ret cleaned_products =>
                emit (search_complete
                        (JObj [(u "products", JArr cleaned_products)])) w1
            | Raise e => (Raise e, w1)
            end
        | Raise e => (Raise e, w1)
        end
    | (Raise e, w1) => (Raise e, w1)
    end.
Proof.
  intros Hq. unfold run_body. rewrite strip_nonempty_eqb by done.
  cbn [bind M_monad].
  destruct (candidates net (strip q) w) as [[products|e] w1]; [|done].
  unfold lift. destruct (Py.iter products) as [items|e]; [|done].
  by destruct (clean_loop items []) as [cleaned|e].
Qed.

(** The same with the handler applied. *)
Lemma run_nonempty q w :
  strip q <> [] ->
  run net q w =
    match candidates net (strip q) w with
    | (Ret products, w1) =>
        match Py.iter products with
        | Ret items =>
            match clean_loop items [] with
            | Ret cleaned_products =>
                emit (search_complete
                        (JObj [(u "products", JArr cleaned_products)])) w1
            | Raise e => emit (search_error e) w1
            end
        | Raise e => emit (search_error e) w1
        end
    | (Raise e, w1) => emit (search_error e) w1
    end.
Proof.
  intros Hq. unfold run, try_except. rewrite run_body_nonempty by done.
  destruct (candidates net (strip q) w) as [[products|e] w1]; [|done].
  destruct (Py.iter products) as [items|e]; [|done].
  by destruct (clean_loop items []) as [cleaned|e].
Qed.

(** C9. When the query is empty after [strip()], [run] is exactly the
    emission of [search_error] with the fixed text [ENTER_QUERY]: that one
    signal is emitted, no HTTP request is issued and the cache is left as it
    was. *)
Theorem run_empty_query q w :
  strip q = [] ->
  run net q w = emit (search_error ENTER_QUERY) w /\
  emitted (snd (run net q w)) = emitted w ++ [search_error ENTER_QUERY] /\
  requests (snd (run net q w)) = requests w /\
  cache (snd (run net q w)) = cache w.
Proof. intros Hq. by rewrite run_empty. Qed.

Lemma run_signal_cases q w :
  exists sig w',
    run net q w = (Ret tt, w') /\
    emitted w' = emitted w ++ [sig] /\
    (forall e w1, run_body net q w = (Raise e, w1) -> sig = search_error e) /\
    (strip q <> [] ->
     (forall e w1, candidates net (strip q) w = (Raise e, w1) ->
        sig = search_error e) /\
     (forall products w1 items e,
        candidates net (strip q) w = (Ret products, w1) ->
        Py.iter products = Ret items ->
        clean_loop items [] = Raise e ->
        sig = search_error e)).
Proof.
  destruct (decide (strip q = [])) as [Hq|Hq].
  - exists (search_error ENTER_QUERY). eexists. rewrite run_empty by done.
    unfold run_body. rewrite Hq. cbn [str_eqb]. unfold emit.
    split; [reflexivity|]. split; [done|]. split; [intros ??; discriminate|done].
  - rewrite run_nonempty, run_body_nonempty by done.
    pose proof (candidates_emitted (strip q) w) as Hem.
    destruct (candidates net (strip q) w) as [[products|e] w1]; cbn [snd] in Hem.
    + destruct (Py.iter products) as [items|e] eqn:Hit.
      * destruct (clean_loop items []) as [cleaned|e] eqn:Hcl;
          unfold emit; cbn [emitted]; rewrite Hem; do 2 eexists;
          (split; [reflexivity|]); (split; [reflexivity|]).
        -- split; [intros ??; discriminate|]. intros _.
           split; [intros ??; discriminate|].
           intros ps w2 its e' [= <- <-] Hi Hc. congruence.
        -- split; [by intros ?? [= <- <-]|]. intros _.
           split; [intros ??; discriminate|].
           intros ps w2 its e' [= <- <-] Hi Hc. congruence.
      * unfold emit; cbn [emitted]; rewrite Hem; do 2 eexists.
        split; [reflexivity|]. split; [reflexivity|].
        split; [by intros ?? [= <- <-]|]. intros _.
        split; [intros ??; discriminate|].
        intros ps w2 its e' [= <- <-] Hi Hc. congruence.
    + unfold emit; cbn [emitted]; rewrite Hem; do 2 eexists.
      split; [reflexivity|]. split; [reflexivity|].
      split; [by intros ?? [= <- <-]|]. intros _.
      split; [by intros ?? [= <- <-]|]. intros ???? [=].
Qed.

(** C1. Every [run] returns normally (no exception leaves it) and emits
    exactly one signal, [search_complete] or [search_error].  Whenever the
    [try] body raises, that signal is [search_error] with the text of the
    exception; in particular when [get_product_by_barcode] raises on a
    barcode query, when [search_products] raises on a text query, and when
    [clean_product_data] (or the read of [name]) raises in the cleaning
    loop. *)
Theorem run_one_terminal_signal q w :
  exists sig w',
    run net q w = (Ret tt, w') /\
    emitted w' = emitted w ++ [sig] /\
    (forall e w1, run_body net q w = (Raise e, w1) -> sig = search_error e) /\
    (strip q <> [] ->
     (forall e w1, is_barcode (strip q) = true ->
        get_product_by_barcode net (strip q) w = (Raise e, w1) ->
        sig = search_error e) /\
     (forall e w1, is_barcode (strip q) = false ->
        search_products net (strip q) 25 w = (Raise e, w1) ->
        sig = search_error e) /\
     (forall products w1 items e,
        candidates net (strip q) w = (Ret products, w1) ->
        Py.iter products = Ret items ->
        clean_loop items [] = Raise e ->
        sig = search_error e)).
Proof.
  destruct (run_signal_cases q w) as (sig & w' & Hrun & Hem & Hbody & Hsteps).
  exists sig, w'. split; [done|]. split; [done|]. split; [done|].
  intros Hq. destruct (Hsteps Hq) as [Hc Hn]. split; [|split; [|done]].
  - intros e w1 Hb Hget. apply (Hc e w1). by apply candidates_barcode_raise.
  - intros e w1 Hb Hs. apply (Hc e w1). by apply candidates_text_raise.
Qed.

(** C6. For a query that is a barcode after [strip()] and is not cached,
    when the provider answers with the document [{status: 0, product:
    null}] (whatever the HTTP status), [run] issues the one barcode request
    and emits exactly [search_complete] with an empty product list; it does
    not emit [search_error], and nothing is cached. *)
Theorem run_not_found_is_success q w sc :
  is_barcode (strip q) = true ->
  cache w !! strip q = None ->
  net (length (requests w)) (barcode_request (strip q))
    = Ret {| status_code := sc; json_body := Ret NOT_FOUND |} ->
  run net q w =
    (Ret tt, {| cache := cache w;
                requests := requests w ++ [barcode_request (strip q)];
                emitted := emitted w ++
                  [search_complete (JObj [(u "products", JArr [])])] |}).
Proof.
  intros Hb Hc Hnet.
  assert (Hq : strip q <> []) by (intros E; by rewrite E in Hb).
  assert (Hget : get_product_by_barcode net (strip q) w =
                 (Ret NOT_FOUND, {| cache := cache w;
                    requests := requests w ++ [barcode_request (strip q)];
                    emitted := emitted w |})).
  { unfold_M. rewrite Hc, Hnet. cbn [status_code json_body].
    by destruct (sc =? 200). }
  rewrite run_nonempty by done.
  unfold candidates. rewrite Hb. cbn [bind M_monad]. by rewrite Hget.
Qed.

(** C8. A raw product whose [product_name] is [''] and whose [brands] is a
    non-empty string passes the filter of [search_products] and is appended
    to the valid products; [clean_product_data] gives it the name
    [UNKNOWN_PRODUCT]; the cleaning loop of [run] then leaves it out.  When
    the provider's answer to a text query is that one product, [run] emits
    [search_complete] with an empty product list. *)
Theorem brand_alone_is_dropped (d : list (pystr * json)) (b : pystr) :
  Py.dict_get d (u "product_name") = Some (JStr []) ->
  Py.dict_get d (u "brands") = Some (JStr b) ->
  b <> [] ->
  has_name_or_brand (JObj d) = Ret true /\
  (forall rest valid_products,
     valid_loop (JObj d :: rest) valid_products
       = valid_loop rest (valid_products ++ [JObj d])) /\
  (exists r, clean_product_data (JObj d) = Ret r /\
             Py.getitem r (u "name") = Ret (JStr UNKNOWN_PRODUCT)) /\
  (forall rest cleaned_products,
     clean_loop (JObj d :: rest) cleaned_products
       = clean_loop rest cleaned_products) /\
  (forall q w sc,
     strip q <> [] -> is_barcode (strip q) = false ->
     net (length (requests w)) (search_request (strip q) 25)
       = Ret {| status_code := sc;
                json_body := Ret (JObj [(u "products", JArr [JObj d])]) |} ->
     emitted (snd (run net q w))
       = emitted w ++ [search_complete (JObj [(u "products", JArr [])])]).
Proof.
  intros Hn Hbr Hb.
  assert (Hd : d <> []) by (intros ->; discriminate).
  assert (Hkeep : has_name_or_brand (JObj d) = Ret true).
  { unfold has_name_or_brand, Py.get. rewrite Hn, Hbr. cbn.
    destruct b; [done|reflexivity]. }
  assert (Hclean : exists r, clean_product_data (JObj d) = Ret r /\
             Py.getitem r (u "name") = Ret (JStr UNKNOWN_PRODUCT)).
  { rewrite clean_product_data_dict by done. rewrite Hn, Hbr.
    cbn [default id Py.strip bind outcome_monad]. eexists.
    split; reflexivity. }
  assert (Hloop : forall rest cleaned_products,
     clean_loop (JObj d :: rest) cleaned_products
       = clean_loop rest cleaned_products).
  { intros rest acc. destruct Hclean as (r & Hr & Hname).
    cbn [clean_loop]. rewrite Hr. cbn [bind outcome_monad]. rewrite Hname.
    cbn [bind outcome_monad]. cbn [Py.eq_str]. by rewrite str_eqb_refl. }
  split; [done|]. split; [|split; [done|split; [done|]]].
  - intros rest acc. cbn [valid_loop]. by rewrite Hkeep.
  - intros q w sc Hq Hbar Hnet. rewrite run_nonempty by done.
    unfold candidates. rewrite Hbar. unfold_M. rewrite Hnet. cbn [json_body].
    cbn [Py.get Py.dict_get]. eval_str_eqb. cbn [default id Py.iter valid_loop].
    rewrite Hkeep. cbn [bind outcome_monad ret app].
    cbn [Py.get Py.dict_get]. eval_str_eqb. cbn [default id Py.iter].
    rewrite Hloop. done.
Qed.

End WithNetwork.

(* ===================================================================== *)
(** * Scenarios                                                           *)
(* ===================================================================== *)

(** C2 as stated does not hold: against a provider that answers
    [{status: 0, product: null}], two consecutive lookups of the same
    barcode from an empty cache issue two requests. *)
Lemma two_lookups_two_calls :
  requests (two_lookups net_unknown (u "4006381333931") empty_world)
    = [barcode_request (u "4006381333931"); barcode_request (u "4006381333931")] /\
  ~ at_most_one_call net_unknown (u "4006381333931") empty_world.
Proof.
  split; [reflexivity|]. unfold at_most_one_call. vm_compute. lia.
Qed.

Lemma barcode_cache_discipline_witness :
  get_product_by_barcode net_found (u "4006381333931") empty_world
    = (Ret found_doc, found_world (u "4006381333931")) /\
  get_product_by_barcode net_found (u "4006381333931")
      (found_world (u "4006381333931"))
    = (Ret found_doc, found_world (u "4006381333931")) /\
  at_most_one_call net_found (u "4006381333931") empty_world.
Proof.
  split; [reflexivity|].
  apply (barcode_cache_discipline net_found (u "4006381333931") empty_world
           (Ret found_doc) (found_world (u "4006381333931"))).
  - reflexivity.
  - exists found_doc. reflexivity.
Defined.

Lemma candidates_classification_witness :
  is_barcode (u "4006381333931") = true /\
  is_barcode (u "yogurt") = false /\
  candidates net_found (u "4006381333931") empty_world
    = (Ret (JArr [JObj milk_raw]), found_world (u "4006381333931")) /\
  requests (snd (candidates net_found (u "yogurt") empty_world))
    = [search_request (u "yogurt") 25].
Proof.
  split; [reflexivity|]. split; [reflexivity|]. split.
  - destruct (candidates_classification net_found (u "4006381333931") empty_world)
      as (_ & Hbar & _).
    destruct Hbar as (_ & _ & Hfound & _); [reflexivity|].
    eapply Hfound; reflexivity.
  - destruct (candidates_classification net_found (u "yogurt") empty_world)
      as (_ & _ & Htext).
    destruct Htext as [Hreq _]; [reflexivity|]. exact Hreq.
Defined.

Lemma run_empty_query_witness :
  run net_found (u "   ") empty_world
    = (Ret tt, {| cache := ∅; requests := [];
                  emitted := [search_error ENTER_QUERY] |}).
Proof.
  destruct (run_empty_query net_found (u "   ") empty_world) as [H _];
    [reflexivity|].
  rewrite H. reflexivity.
Defined.

Lemma run_one_terminal_signal_witness :
  emitted (snd (run net_timeout (u "4006381333931") empty_world))
    = [search_error (u "Ошибка: Read timed out.")].
Proof.
  destruct (run_one_terminal_signal net_timeout (u "4006381333931") empty_world)
    as (sig & w' & Hrun & Hem & _ & Hsteps).
  destruct Hsteps as (Hlookup & _ & _); [vm_compute; discriminate|].
  rewrite Hrun. cbn [snd]. rewrite Hem. cbn [emitted empty_world app].
  f_equal. eapply Hlookup; [reflexivity|]. vm_compute. reflexivity.
Defined.

Lemma run_not_found_is_success_witness :
  run net_unknown (u " 4006381333931 ") empty_world =
    (Ret tt, {| cache := ∅;
                requests := [barcode_request (u "4006381333931")];
                emitted := [search_complete (JObj [(u "products", JArr [])])] |}).
Proof.
  apply (run_not_found_is_success net_unknown (u " 4006381333931 ") empty_world 200);
    reflexivity.
Defined.

Lemma brand_alone_is_dropped_witness :
  emitted (snd (run net_acme (u "acme") empty_world))
    = [search_complete (JObj [(u "products", JArr [])])].
Proof.
  destruct (brand_alone_is_dropped net_acme acme_raw (u "Acme"))
    as (_ & _ & _ & _ & Hrun);
    [reflexivity|reflexivity|vm_compute; discriminate|].
  apply (Hrun (u "acme") empty_world 200);
    [vm_compute; discriminate|reflexivity|reflexivity].
Defined.

(* ===================================================================== *)
(** * Further properties of the client                                    *)
(* ===================================================================== *)

Section ClientErrors.

Variable net : network.

Lemma get_raise_iff v k dflt e :
  Py.get v k dflt = Raise e <->
  is_dict v = false /\ e = Py.no_attribute v (u "get").
Proof.
  destruct v; cbn [Py.get is_dict]; split;
    solve [ intros [= <-]; done | intros [_ ->]; done
          | intros [=] | intros [[=] _] ].
Qed.

Lemma get_dict_ret d k dflt :
  Py.get (JObj d) k dflt = Ret (default dflt (Py.dict_get d k)).
Proof. reflexivity. Qed.

(** What a lookup returns once [b] is in the cache is the cached document. *)
Lemma gpb_result_cached b w r1 w1 data :
  get_product_by_barcode net b w = (r1, w1) ->
  cache w1 !! b = Some data ->
  r1 = Ret data.
Proof.
  intros Hrun Hdata.
  destruct (gpb_cache net _ _ _ _ Hrun)
    as [Hc|(_ & ? & d & ? & ? & _ & _ & _ & _ & _ & _ & _ & Hc & ->)].
  - rewrite Hc in Hdata. rewrite (gpb_hit net _ _ data) in Hrun by done. congruence.
  - rewrite Hc, lookup_insert_eq in Hdata. congruence.
Qed.

Lemma gpb_cache_mono b w :
  cache w ⊆ cache (snd (get_product_by_barcode net b w)).
Proof.
  destruct (get_product_by_barcode net b w) as [r1 w1] eqn:Hrun. cbn [snd].
  destruct (gpb_cache net _ _ _ _ Hrun) as [->|(Hnone & ? & d & ? & ? & H)]; [done|].
  destruct H as (_ & _ & _ & _ & _ & _ & _ & -> & _).
  by apply insert_subseteq.
Qed.

(** X1. [get_product_by_barcode(b)] never removes or overwrites a cache
    entry: the cache after the call contains the cache before it, and
    entries under other keys than [b] are exactly as before. *)
Theorem gpb_cache_only_grows b w :
  cache w ⊆ cache (snd (get_product_by_barcode net b w)) /\
  (forall k, k <> b ->
     cache (snd (get_product_by_barcode net b w)) !! k = cache w !! k).
Proof.
  split; [apply gpb_cache_mono|]. intros k Hk.
  destruct (get_product_by_barcode net b w) as [r1 w1] eqn:Hrun. cbn [snd].
  destruct (gpb_cache net _ _ _ _ Hrun) as [->|(Hnone & ? & d & ? & ? & H)]; [done|].
  destruct H as (_ & _ & _ & _ & _ & _ & _ & -> & _).
  by rewrite lookup_insert_ne.
Qed.

(** X2. [get_product_by_barcode(b)] raises exactly when [b] is not cached
    and the request raises, or the answer has HTTP status 200 and a body
    that is not JSON or is JSON but not an object.  The exception text is
    then the text of the cause prefixed by [Ошибка: ]; the request has
    been issued and the cache is unchanged. *)
Theorem gpb_raise_iff b w e w1 :
  get_product_by_barcode net b w = (Raise e, w1) <->
  cache w !! b = None /\
  w1 = with_request w (barcode_request b) /\
  exists cause,
    e = u "Ошибка: " ++ cause /\
    (net (length (requests w)) (barcode_request b) = Raise cause \/
     exists resp,
       net (length (requests w)) (barcode_request b) = Ret resp /\
       status_code resp = 200 /\
       (json_body resp = Raise cause \/
        exists data, json_body resp = Ret data /\ is_dict data = false /\
                     cause = Py.no_attribute data (u "get"))).
Proof.
  unfold with_request. split.
  - unfold_M.
    destruct (cache w !! b) as [data|] eqn:H; [intros [=]|].
    destruct (net _ _) as [resp|e0] eqn:Hnet;
      [|intros [= <- <-]; split; [done|split; [done|]]; exists e0; by split; [|left]].
    destruct (status_code resp =? 200) eqn:Hsc; [|intros [=]].
    apply Z.eqb_eq in Hsc.
    destruct (json_body resp) as [data|e0] eqn:Hbody.
    + destruct (Py.get data (u "status") JNull) as [st|e0] eqn:Hst.
      * destruct data as [| | | | | |d]; try discriminate Hst. cbn [Py.get].
        destruct (Py.eq_one st); [|intros [=]].
        destruct (Py.truthy _); intros [=].
      * apply get_raise_iff in Hst as [Hd ->].
        intros [= <- <-]. split; [done|]. split; [done|].
        eexists. split; [reflexivity|]. right. exists resp.
        split; [done|]. split; [done|]. right. by exists data.
    + intros [= <- <-]. split; [done|]. split; [done|].
      exists e0. split; [done|]. right. exists resp. by split; [|split; [|left]].
  - intros (Hc & -> & cause & -> & Hcases). unfold_M. rewrite Hc.
    destruct Hcases as [Hnet|(resp & Hnet & Hsc & Hbody)]; rewrite Hnet; [done|].
    rewrite Hsc. cbn [Z.eqb Pos.eqb].
    destruct Hbody as [Hbody|(data & Hbody & Hd & ->)]; rewrite Hbody; [done|].
    by destruct data.
Qed.

(** X3. For a barcode that is not cached, an answer whose HTTP status is
    not 200 gives the not-found document whatever the body is, even a body
    that is not JSON; nothing is cached. *)
Theorem gpb_non_200_not_found b w resp :
  cache w !! b = None ->
  net (length (requests w)) (barcode_request b) = Ret resp ->
  status_code resp <> 200 ->
  get_product_by_barcode net b w
    = (Ret NOT_FOUND, with_request w (barcode_request b)).
Proof.
  intros Hc Hnet Hsc. unfold_M. rewrite Hc, Hnet.
  by destruct (Z.eqb_spec (status_code resp) 200).
Qed.

(** A found document is returned and stored whatever else it holds. *)
Lemma gpb_found b w resp d st product :
  cache w !! b = None ->
  net (length (requests w)) (barcode_request b) = Ret resp ->
  status_code resp = 200 ->
  json_body resp = Ret (JObj d) ->
  Py.dict_get d (u "status") = Some st -> Py.eq_one st = true ->
  Py.dict_get d (u "product") = Some product -> Py.truthy product = true ->
  get_product_by_barcode net b w
    = (Ret (JObj d),
       {| cache := <[b := JObj d]> (cache w);
          requests := requests w ++ [barcode_request b];
          emitted := emitted w |}).
Proof.
  intros Hc Hnet Hsc Hbody Hst Hone Hp Htp. unfold_M. rewrite Hc, Hnet, Hsc, Hbody.
  cbn [Z.eqb Pos.eqb Py.get]. rewrite Hst. cbn [default id]. rewrite Hone, Hp.
  cbn [default id]. by rewrite Htp.
Qed.

End ClientErrors.

Lemma gpb_raise_iff_witness :
  get_product_by_barcode net_timeout (u "4006381333931") empty_world
    = (Raise (u "Ошибка: Read timed out."),
       with_request empty_world (barcode_request (u "4006381333931"))).
Proof.
  apply (gpb_raise_iff net_timeout). split; [reflexivity|]. split; [reflexivity|].
  exists (u "Read timed out."). split; [vm_compute; reflexivity|]. left. reflexivity.
Defined.

Lemma gpb_non_200_not_found_witness :
  get_product_by_barcode net_down (u "4006381333931") empty_world
    = (Ret NOT_FOUND,
       with_request empty_world (barcode_request (u "4006381333931"))).
Proof.
  apply (gpb_non_200_not_found net_down (u "4006381333931") empty_world
           {| status_code := 503;
              json_body := Raise (u "Expecting value: line 1 column 1 (char 0)") |});
    [reflexivity | reflexivity | discriminate].
Defined.

Section SearchProperties.

Variable net : network.

Lemma has_name_or_brand_dict d : has_name_or_brand (JObj d) = Ret (keeps d).
Proof.
  unfold has_name_or_brand, keeps. cbn [Py.get bind outcome_monad ret].
  by destruct (Py.truthy (default JNull (Py.dict_get d (u "product_name")))).
Qed.

Lemma has_name_or_brand_not_dict v :
  is_dict v = false -> has_name_or_brand v = Raise (Py.no_attribute v (u "get")).
Proof. by destruct v. Qed.

(** The loop of [search_products] on a list of [dict]s is an
    order-preserving filter. *)
Lemma valid_loop_dicts ds acc :
  valid_loop (List.map JObj ds) acc
    = Ret (acc ++ List.map JObj (List.filter keeps ds)).
Proof.
  revert acc. induction ds as [|d ds IH]; intros acc; cbn [List.map valid_loop List.filter].
  - by rewrite app_nil_r.
  - rewrite has_name_or_brand_dict. cbn [bind outcome_monad].
    destruct (keeps d); rewrite IH; [|done].
    by rewrite <- app_assoc.
Qed.

Lemma valid_loop_app_not_dict ds v rest acc :
  is_dict v = false ->
  valid_loop (List.map JObj ds ++ v :: rest) acc
    = Raise (Py.no_attribute v (u "get")).
Proof.
  intros Hv. revert acc.
  induction ds as [|d ds IH]; intros acc; cbn [List.map app valid_loop].
  - by rewrite has_name_or_brand_not_dict.
  - rewrite has_name_or_brand_dict. cbn [bind outcome_monad].
    by destruct (keeps d); rewrite IH.
Qed.

(** X4. [search_products] never looks at the HTTP status: against a
    provider that differs only in the status of its responses it returns
    the same result and leaves the same state. *)
Theorem search_products_ignores_status sc q n w :
  search_products (with_status net sc) q n w = search_products net q n w.
Proof.
  unfold_M. unfold with_status.
  by destruct (net _ _) as [resp|e].
Qed.

Lemma search_products_dicts q n w resp d ds :
  net (length (requests w)) (search_request q n) = Ret resp ->
  json_body resp = Ret (JObj d) ->
  default (JArr []) (Py.dict_get d (u "products")) = JArr (List.map JObj ds) ->
  search_products net q n w
    = (Ret (JObj [(u "products", JArr (List.map JObj (List.filter keeps ds)))]),
       with_request w (search_request q n)).
Proof.
  intros Hnet Hbody Hps. unfold_M. rewrite Hnet, Hbody. cbn [Py.get].
  rewrite Hps. cbn [Py.iter]. by rewrite valid_loop_dicts.
Qed.

(** X5. When the answer to a search is a JSON object whose [products]
    (an empty list when the key is missing) is a list of objects,
    [search_products] issues the one search request and returns
    [{'products': ...}] with, in the provider's order, exactly the entries
    that have a truthy [product_name] or a truthy [brands]. *)
Theorem search_products_filter q n w resp d ds :
  net (length (requests w)) (search_request q n) = Ret resp ->
  json_body resp = Ret (JObj d) ->
  default (JArr []) (Py.dict_get d (u "products")) = JArr (List.map JObj ds) ->
  search_products net q n w
    = (Ret (JObj [(u "products", JArr (List.map JObj (List.filter keeps ds)))]),
       with_request w (search_request q n)).
Proof. apply search_products_dicts. Qed.

(** X6. One entry of the provider's product list that is not an object
    (a [null], a number, a string, a list) after entries that are objects
    makes the whole search raise: the text is [Ошибка поиска: ] followed
    by the [AttributeError] of [.get] on that entry, whatever else the
    list holds. *)
Theorem search_products_bad_entry q n w resp d ds v rest :
  net (length (requests w)) (search_request q n) = Ret resp ->
  json_body resp = Ret (JObj d) ->
  default (JArr []) (Py.dict_get d (u "products"))
    = JArr (List.map JObj ds ++ v :: rest) ->
  is_dict v = false ->
  search_products net q n w
    = (Raise (u "Ошибка поиска: " ++ Py.no_attribute v (u "get")),
       with_request w (search_request q n)).
Proof.
  intros Hnet Hbody Hps Hv. unfold_M. rewrite Hnet, Hbody. cbn [Py.get].
  rewrite Hps. cbn [Py.iter]. by rewrite valid_loop_app_not_dict.
Qed.

(** X7. Every exception of [search_products] carries the prefix
    [Ошибка поиска: ]; it raises in particular when the request raises,
    when the body is not JSON and when the body is JSON but not an
    object.  In each case the one request has been issued. *)
Theorem search_products_raise_prefix q n w :
  (forall e w1, search_products net q n w = (Raise e, w1) ->
     exists cause, e = u "Ошибка поиска: " ++ cause /\
                   w1 = with_request w (search_request q n)) /\
  (forall cause, net (length (requests w)) (search_request q n) = Raise cause ->
     search_products net q n w
       = (Raise (u "Ошибка поиска: " ++ cause),
          with_request w (search_request q n))) /\
  (forall resp cause,
     net (length (requests w)) (search_request q n) = Ret resp ->
     json_body resp = Raise cause ->
     search_products net q n w
       = (Raise (u "Ошибка поиска: " ++ cause),
          with_request w (search_request q n))) /\
  (forall resp data,
     net (length (requests w)) (search_request q n) = Ret resp ->
     json_body resp = Ret data -> is_dict data = false ->
     search_products net q n w
       = (Raise (u "Ошибка поиска: " ++ Py.no_attribute data (u "get")),
          with_request w (search_request q n))).
Proof.
  split; [|split; [|split]].
  - intros e w1. unfold_M. unfold with_request.
    destruct (net _ _) as [resp|e0]; [|intros [= <- <-]; by eexists].
    destruct (json_body resp) as [data|e0]; [|intros [= <- <-]; by eexists].
    destruct (Py.get data _ _) as [ps|e0]; [|intros [= <- <-]; by eexists].
    destruct (Py.iter ps) as [items|e0]; [|intros [= <- <-]; by eexists].
    destruct (valid_loop items []) as [valid|e0]; [intros [=]|intros [= <- <-]; by eexists].
  - intros cause Hnet. unfold_M. by rewrite Hnet.
  - intros resp cause Hnet Hbody. unfold_M. by rewrite Hnet, Hbody.
  - intros resp data Hnet Hbody Hd. unfold_M. rewrite Hnet, Hbody.
    by destruct data.
Qed.

End SearchProperties.

Lemma search_products_filter_witness :
  search_products net_two (u "acme") 25 empty_world
    = (Ret (JObj [(u "products", JArr [JObj acme_raw; JObj yogurt_raw])]),
       with_request empty_world (search_request (u "acme") 25)).
Proof.
  apply (search_products_filter net_two (u "acme") 25 empty_world
           {| status_code := 200;
              json_body := Ret (JObj [(u "products",
                                 JArr [JObj acme_raw; JObj yogurt_raw])]) |}
           [(u "products", JArr [JObj acme_raw; JObj yogurt_raw])]
           [acme_raw; yogurt_raw]); reflexivity.
Defined.

Lemma search_products_bad_entry_witness :
  search_products net_null_entry (u "yogurt") 25 empty_world
    = (Raise (u "Ошибка поиска: 'NoneType' object has no attribute 'get'"),
       with_request empty_world (search_request (u "yogurt") 25)).
Proof.
  replace (u "Ошибка поиска: 'NoneType' object has no attribute 'get'")
    with (u "Ошибка поиска: " ++ Py.no_attribute JNull (u "get"))
    by (vm_compute; reflexivity).
  apply (search_products_bad_entry net_null_entry (u "yogurt") 25 empty_world
           {| status_code := 200;
              json_body := Ret (JObj [(u "products",
                                 JArr [JObj yogurt_raw; JNull])]) |}
           [(u "products", JArr [JObj yogurt_raw; JNull])]
           [yogurt_raw] JNull []); reflexivity.
Defined.

Lemma search_products_raise_prefix_witness :
  search_products net_list (u "yogurt") 25 empty_world
    = (Raise (u "Ошибка поиска: 'list' object has no attribute 'get'"),
       with_request empty_world (search_request (u "yogurt") 25)).
Proof.
  replace (u "Ошибка поиска: 'list' object has no attribute 'get'")
    with (u "Ошибка поиска: " ++ Py.no_attribute (JArr []) (u "get"))
    by (vm_compute; reflexivity).
  destruct (search_products_raise_prefix net_list (u "yogurt") 25 empty_world)
    as (_ & _ & _ & H).
  apply (H {| status_code := 200; json_body := Ret (JArr []) |} (JArr []));
    reflexivity.
Defined.

(* ===================================================================== *)
(** * Further properties of the pure functions                            *)
(* ===================================================================== *)

Section PureErrors.

Lemma copy_if_truthy_not_dict v src dst acc :
  is_dict v = false ->
  copy_if_truthy v src dst acc = Raise (Py.no_attribute v (u "get")).
Proof. by destruct v. Qed.

Lemma extract_nutrition_summary d :
  extract_nutrition (JObj d) = Ret (JObj (summary_of d)).
Proof.
  unfold extract_nutrition, summary_of, add_field.
  destruct (Py.truthy (JObj d)) eqn:Ht; cbn [negb].
  - rewrite copy_if_truthy_dict. cbn [bind outcome_monad ret].
    rewrite copy_if_truthy_dict. cbn [bind outcome_monad ret].
    rewrite copy_if_truthy_dict. cbn [bind outcome_monad ret].
    rewrite copy_if_truthy_dict. cbn [bind outcome_monad ret].
    reflexivity.
  - destruct d; [|done]. reflexivity.
Qed.

(** X8. [extract_nutrition] returns [{}] on every falsy argument ([None],
    [{}], [0], [''], [[]]), and raises exactly on the truthy arguments
    that are not a [dict]: the [AttributeError] of [.get]. *)
Theorem extract_nutrition_errors (v : json) :
  (Py.truthy v = false -> extract_nutrition v = Ret (JObj [])) /\
  (Py.truthy v = true -> is_dict v = false ->
     extract_nutrition v = Raise (Py.no_attribute v (u "get"))) /\
  ((exists e, extract_nutrition v = Raise e) <->
     Py.truthy v = true /\ is_dict v = false).
Proof.
  assert (Hfalsy : Py.truthy v = false -> extract_nutrition v = Ret (JObj [])).
  { intros H. unfold extract_nutrition. by rewrite H. }
  assert (Hraise : Py.truthy v = true -> is_dict v = false ->
     extract_nutrition v = Raise (Py.no_attribute v (u "get"))).
  { intros Ht Hd. unfold extract_nutrition. rewrite Ht. cbn [negb].
    by rewrite copy_if_truthy_not_dict. }
  split; [done|]. split; [done|]. split.
  - intros [e He]. destruct (Py.truthy v) eqn:Ht.
    + split; [done|]. destruct v; try done.
      rewrite extract_nutrition_summary in He. discriminate.
    + rewrite Hfalsy in He by done. discriminate.
  - intros [Ht Hd]. eexists. by apply Hraise.
Qed.

(** X9. The summary depends on the four source keys only: two mappings
    that agree on [energy-kcal_100g], [proteins_100g], [fat_100g] and
    [carbohydrates_100g] have the same summary. *)
Theorem extract_nutrition_four_keys (d d' : list (pystr * json)) :
  Py.dict_get d (u "energy-kcal_100g") = Py.dict_get d' (u "energy-kcal_100g") ->
  Py.dict_get d (u "proteins_100g") = Py.dict_get d' (u "proteins_100g") ->
  Py.dict_get d (u "fat_100g") = Py.dict_get d' (u "fat_100g") ->
  Py.dict_get d (u "carbohydrates_100g") = Py.dict_get d' (u "carbohydrates_100g") ->
  extract_nutrition (JObj d) = extract_nutrition (JObj d').
Proof.
  intros H1 H2 H3 H4. rewrite !extract_nutrition_summary.
  unfold summary_of, add_field, truthy_at. by rewrite H1, H2, H3, H4.
Qed.

Lemma get_not_dict v k dflt :
  is_dict v = false -> Py.get v k dflt = Raise (Py.no_attribute v (u "get")).
Proof. by destruct v. Qed.

Lemma strip_not_text field :
  is_text field = false ->
  Py.strip (default (JStr []) field)
    = Raise (Py.no_attribute (default (JStr []) field) (u "strip")).
Proof. by destruct field as [[]|]. Qed.

Lemma clean_product_data_text d :
  d <> [] -> text_typed d = true ->
  clean_product_data (JObj d) = Ret (record_of d).
Proof.
  intros Hd [Hn Hb]%andb_true_iff. rewrite clean_product_data_dict by done.
  by rewrite !strip_text by done.
Qed.

(** X10. On a truthy argument [clean_product_data] raises exactly when the
    argument is not a [dict] (the [AttributeError] of [.get]), or its
    [product_name] is present and not a string, or else its [brands] is
    present and not a string (the [AttributeError] of [.strip] on that
    value, [product_name] first).  A JSON [null] name is such a value. *)
Theorem clean_product_data_errors (p : json) :
  Py.truthy p = true ->
  (is_dict p = false ->
     clean_product_data p = Raise (Py.no_attribute p (u "get"))) /\
  (forall d v, p = JObj d ->
     Py.dict_get d (u "product_name") = Some v -> is_text (Some v) = false ->
     clean_product_data p = Raise (Py.no_attribute v (u "strip"))) /\
  (forall d v, p = JObj d ->
     is_text (Py.dict_get d (u "product_name")) = true ->
     Py.dict_get d (u "brands") = Some v -> is_text (Some v) = false ->
     clean_product_data p = Raise (Py.no_attribute v (u "strip"))) /\
  ((exists e, clean_product_data p = Raise e) <->
     forall d, p = JObj d -> text_typed d = false).
Proof.
  intros Ht. split; [|split; [|split]].
  - intros Hd. unfold clean_product_data. rewrite Ht. cbn [negb].
    by rewrite get_not_dict.
  - intros d v -> Hv Htext. rewrite clean_product_data_dict by (by destruct d).
    rewrite Hv in *. by rewrite (strip_not_text (Some v)).
  - intros d v -> Hn Hv Htext. rewrite clean_product_data_dict by (by destruct d).
    rewrite strip_text by done. cbn [bind outcome_monad].
    rewrite Hv in *. by rewrite (strip_not_text (Some v)).
  - split.
    + intros [e He] d ->. destruct (text_typed d) eqn:Htt; [|done].
      rewrite clean_product_data_text in He; [discriminate|by destruct d|done].
    + intros Hall. destruct (is_dict p) eqn:Hd.
      * destruct p as [| | | | | |d]; try discriminate.
        specialize (Hall d eq_refl). rewrite clean_product_data_dict by (by destruct d).
        unfold text_typed in Hall. apply andb_false_iff in Hall.
        destruct (is_text (Py.dict_get d (u "product_name"))) eqn:Hn.
        -- destruct Hall as [|Hb]; [done|]. rewrite strip_text by done.
           cbn [bind outcome_monad]. rewrite strip_not_text by done. by eexists.
        -- rewrite strip_not_text by done. by eexists.
      * eexists. unfold clean_product_data. rewrite Ht. cbn [negb].
        by rewrite get_not_dict.
Qed.

Lemma clean_product_data_errors_witness :
  clean_product_data (JObj [(u "product_name", JNull)])
    = Raise (Py.no_attribute JNull (u "strip")).
Proof.
  destruct (clean_product_data_errors (JObj [(u "product_name", JNull)]))
    as (_ & H & _); [reflexivity|].
  apply (H [(u "product_name", JNull)] JNull); reflexivity.
Defined.

(** X11. Normalisation keeps the nutrition: whenever [clean_product_data]
    returns for a truthy raw product, [.get('nutriments', {})] on the
    record is the same value as on the raw product, so
    [extract_nutrition] gives the same summary for both. *)
Theorem clean_product_data_keeps_nutrition (p r : json) :
  Py.truthy p = true ->
  clean_product_data p = Ret r ->
  Py.get r (u "nutriments") (JObj []) = Py.get p (u "nutriments") (JObj []) /\
  (forall n, Py.get p (u "nutriments") (JObj []) = Ret n ->
     exists n', Py.get r (u "nutriments") (JObj []) = Ret n' /\
                extract_nutrition n' = extract_nutrition n).
Proof.
  intros Ht Hr.
  assert (H : Py.get r (u "nutriments") (JObj [])
              = Py.get p (u "nutriments") (JObj [])).
  { destruct p as [| | | | | |d];
      try (unfold clean_product_data in Hr; rewrite Ht in Hr; discriminate Hr).
    rewrite clean_product_data_dict in Hr by (by destruct d).
    destruct (Py.strip _) as [name|e]; [|discriminate Hr].
    cbn [bind outcome_monad] in Hr.
    destruct (Py.strip _) as [brand|e]; [|discriminate Hr].
    cbn [bind outcome_monad] in Hr. injection Hr as <-.
    cbn [Py.get Py.dict_get]. eval_str_eqb. reflexivity. }
  split; [done|]. intros n Hn. exists n. by rewrite H.
Qed.

Lemma clean_product_data_keeps_nutrition_witness :
  Py.get (record_of yogurt_raw) (u "nutriments") (JObj [])
    = Ret (JObj apple_nutriments).
Proof.
  destruct (clean_product_data_keeps_nutrition (JObj yogurt_raw) (record_of yogurt_raw))
    as [H _]; [reflexivity|reflexivity|].
  rewrite H. reflexivity.
Defined.

End PureErrors.

Lemma extract_nutrition_errors_witness :
  extract_nutrition (JArr [JInt 1])
    = Raise (u "'list' object has no attribute 'get'").
Proof.
  destruct (extract_nutrition_errors (JArr [JInt 1])) as (_ & H & _).
  rewrite H; [vm_compute; reflexivity|reflexivity|reflexivity].
Defined.

Lemma extract_nutrition_four_keys_witness :
  extract_nutrition (JObj ((u "salt_100g", JInt 1) :: apple_nutriments))
    = extract_nutrition (JObj apple_nutriments).
Proof.
  apply (extract_nutrition_four_keys
           ((u "salt_100g", JInt 1) :: apple_nutriments) apple_nutriments);
    reflexivity.
Defined.

(* ===================================================================== *)
(** * Further properties of the worker                                    *)
(* ===================================================================== *)

Section WorkerProperties.

Variable net : network.

(** [run] on a non-empty query is [candidates] followed by one signal. *)
Lemma run_signal_of q w :
  strip q <> [] ->
  run net q w =
    (Ret tt, with_signal (snd (candidates net (strip q) w))
                         (signal_of (fst (candidates net (strip q) w)))).
Proof.
  intros Hq. rewrite run_nonempty by done. unfold signal_of, with_signal, emit.
  destruct (candidates net (strip q) w) as [[products|e] w1]; cbn [fst snd]; [|done].
  destruct (Py.iter products) as [items|e]; [|done].
  by destruct (clean_loop items []) as [cleaned|e].
Qed.

(** The barcode branch is the lookup followed by a pure step. *)
Lemma candidates_barcode q :
  is_barcode q = true ->
  exists found : json -> outcome json,
    forall net' w',
      candidates net' q w' =
        match get_product_by_barcode net' q w' with
        | (Ret result, w1) => (found result, w1)
        | (Raise e, w1) => (Raise e, w1)
        end.
Proof.
  intros Hb.
  exists (fun result =>
    match Py.get result (u "status") JNull with
    | Ret status =>
        if Py.eq_one status then
          match Py.get result (u "product") JNull with
          | Ret product =>
              if Py.truthy product then
                match Py.getitem result (u "product") with
                | Ret product => Ret (JArr [product])
                | Raise e => Raise e
                end
              else Ret (JArr [])
          | Raise e => Raise e
          end
        else Ret (JArr [])
    | Raise e => Raise e
    end).
  intros net' w'. unfold candidates. rewrite Hb. cbn [bind M_monad].
  destruct (get_product_by_barcode net' q w') as [[result|e] w1]; [|done].
  unfold lift. repeat case_match; simplify_eq; done.
Qed.

Lemma candidates_cache_text q w :
  is_barcode q = false -> cache (snd (candidates net q w)) = cache w.
Proof.
  intros Hb. unfold candidates. rewrite Hb. cbn [bind M_monad].
  pose proof (search_products_cache net q 25 w) as H.
  by destruct (search_products net q 25 w) as [[result|e] w1].
Qed.

Lemma candidates_cache_barcode q w :
  is_barcode q = true ->
  cache (snd (candidates net q w))
    = cache (snd (get_product_by_barcode net q w)).
Proof.
  intros Hb. destruct (candidates_barcode q Hb) as [found Hc].
  rewrite Hc. by destruct (get_product_by_barcode net q w) as [[result|e] w1].
Qed.

(** The cleaning loop keeps the records it was given and appends records
    that the results table can read. *)
Lemma clean_loop_table items acc rs :
  Forall table_record acc ->
  clean_loop items acc = Ret rs ->
  Forall table_record rs /\ (length rs <= length acc + length items)%nat.
Proof.
  revert acc. induction items as [|p items IH]; intros acc Hacc; cbn [clean_loop].
  - intros [= <-]. split; [done|]. simpl. lia.
  - destruct (clean_product_data p) as [r|e] eqn:Hr; [|intros [=]].
    cbn [bind outcome_monad].
    apply clean_product_data_ret in Hr as [->|(s & b & c & q & n & ->)];
      [intros [=]|].
    cbn [Py.getitem Py.dict_get]. eval_str_eqb. cbn [bind outcome_monad Py.eq_str].
    destruct (str_eqb _ UNKNOWN_PRODUCT) eqn:Hn; cbn [negb]; intros Hloop.
    + apply IH in Hloop as [H1 H2]; [|done]. split; [done|]. simpl. lia.
    + apply IH in Hloop as [H1 H2].
      * split; [done|]. rewrite length_app in H2. simpl in *. lia.
      * apply Forall_app. split; [done|]. constructor; [|done].
        do 5 eexists. split; [reflexivity|].
        split; [by apply or_placeholder_nonempty|].
        split; [intros E; rewrite E, str_eqb_refl in Hn; discriminate|].
        split; [by apply or_placeholder_nonempty|].
        split; by apply or_else_truthy.
Qed.

(** X12. Whatever the provider answers, a result that [run] emits with
    [search_complete] is [{'products': [...]}] in which every entry has the
    five fields, text in [name] and [brand], a non-empty name that is not
    the placeholder, a non-empty brand and truthy [barcode] and
    [quantity]: the results table can read [name], [brand] and [barcode]
    of every row it is given. *)
Theorem run_result_table_records q w payload :
  emitted (snd (run net q w)) = emitted w ++ [search_complete payload] ->
  exists rs, payload = JObj [(u "products", JArr rs)] /\ Forall table_record rs.
Proof.
  destruct (decide (strip q = [])) as [Hq|Hq].
  - rewrite run_empty by done. unfold emit. cbn [snd emitted].
    intros [= H]%app_inv_head.
  - rewrite run_signal_of by done. cbn [snd with_signal emitted].
    rewrite candidates_emitted. intros [= H]%app_inv_head. revert H.
    unfold signal_of. destruct (fst _) as [products|e]; [|intros [=]].
    destruct (Py.iter products) as [items|e]; [|intros [=]].
    destruct (clean_loop items []) as [rs|e] eqn:Hloop; [|intros [=]].
    intros [= <-]. exists rs. split; [done|].
    by apply (clean_loop_table items [] rs).
Qed.

Lemma candidates_barcode_shape q w products w1 :
  is_barcode q = true ->
  candidates net q w = (Ret products, w1) ->
  exists l, products = JArr l /\ (length l <= 1)%nat.
Proof.
  intros Hb. unfold candidates. rewrite Hb. cbn [bind M_monad].
  destruct (get_product_by_barcode net q w) as [[result|e] w']; [|intros [=]].
  unfold lift.
  destruct (Py.get result (u "status") JNull) as [st|e]; [|intros [=]].
  destruct (Py.eq_one st); [|intros [= <- _]; exists []; split; [done|simpl; lia]].
  destruct (Py.get result (u "product") JNull) as [p|e]; [|intros [=]].
  destruct (Py.truthy p); [|intros [= <- _]; exists []; split; [done|simpl; lia]].
  destruct (Py.getitem result (u "product")) as [p'|e]; [|intros [=]].
  intros [= <- _]. exists [p']. split; [done|simpl; lia].
Qed.

(** X13. A barcode query never yields more than one product. *)
Theorem run_barcode_at_most_one q w rs :
  is_barcode (strip q) = true ->
  emitted (snd (run net q w))
    = emitted w ++ [search_complete (JObj [(u "products", JArr rs)])] ->
  (length rs <= 1)%nat.
Proof.
  intros Hb.
  assert (Hq : strip q <> []) by (intros E; by rewrite E in Hb).
  rewrite run_signal_of by done. cbn [snd with_signal emitted].
  rewrite candidates_emitted. intros [= H]%app_inv_head. revert H.
  destruct (candidates net (strip q) w) as [[products|e] w1] eqn:Hc;
    cbn [fst signal_of]; [|intros [=]].
  destruct (candidates_barcode_shape _ _ _ _ Hb Hc) as (l & -> & Hl).
  cbn [Py.iter].
  destruct (clean_loop l []) as [rs'|e] eqn:Hloop; [|intros [=]].
  intros [= <-].
  apply (clean_loop_table l [] rs') in Hloop as [_ Hlen]; [|done].
  simpl in Hlen. lia.
Qed.

(** X14. [run] issues at most one HTTP request, the barcode request or
    the search request with page size 25 for the stripped query; it never
    removes or changes a cache entry, and on a query that is not a barcode
    it leaves the cache as it was. *)
Theorem run_resources q w :
  (requests (snd (run net q w)) = requests w \/
   requests (snd (run net q w)) = requests w ++ [barcode_request (strip q)] \/
   requests (snd (run net q w)) = requests w ++ [search_request (strip q) 25]) /\
  cache w ⊆ cache (snd (run net q w)) /\
  (is_barcode (strip q) = false -> cache (snd (run net q w)) = cache w).
Proof.
  destruct (decide (strip q = [])) as [Hq|Hq].
  - rewrite run_empty by done. unfold emit. cbn [snd]. by split; [left|].
  - rewrite run_signal_of by done. cbn [snd with_signal requests cache].
    destruct (is_barcode (strip q)) eqn:Hb.
    + rewrite candidates_requests_barcode, candidates_cache_barcode by done.
      split; [|split; [apply gpb_cache_mono|done]].
      destruct (gpb_requests net (strip q) w) as [->| ->]; auto.
    + rewrite candidates_requests_text, candidates_cache_text by done. auto.
Qed.

(** X15. White space around the query does not matter: [run] on a query
    and on the stripped query do the same. *)
Theorem run_strip_insensitive q w :
  run net (strip q) w = run net q w.
Proof. unfold run, run_body. by rewrite strip_idem. Qed.

End WorkerProperties.

(** X16. Repeating a barcode search whose document is in the cache after
    the first run (a cache hit or a successful lookup) issues no request,
    whatever the provider does by then, leaves the cache as it is and emits
    the same signal again. *)
Theorem run_repeat_cached (net net2 : network) q w :
  is_barcode (strip q) = true ->
  is_Some (cache (snd (run net q w)) !! strip q) ->
  exists sig,
    emitted (snd (run net q w)) = emitted w ++ [sig] /\
    run net2 q (snd (run net q w))
      = (Ret tt, with_signal (snd (run net q w)) sig).
Proof.
  intros Hb.
  assert (Hq : strip q <> []) by (intros E; by rewrite E in Hb).
  destruct (candidates_barcode (strip q) Hb) as [found Hc].
  rewrite (run_signal_of net) by done. rewrite (run_signal_of net2) by done.
  rewrite !Hc.
  destruct (get_product_by_barcode net (strip q) w) as [r1 w1] eqn:Hrun.
  intros [data Hdata].
  assert (Hcache : cache w1 !! strip q = Some data).
  { by destruct r1; cbn [snd with_signal cache] in Hdata. }
  pose proof (gpb_result_cached net _ _ _ _ _ Hrun Hcache) as ->.
  pose proof (gpb_emitted net (strip q) w) as Hem. rewrite Hrun in Hem.
  cbn [fst snd] in *.
  rewrite (gpb_hit net2 (strip q) (with_signal w1 (signal_of (found data))) data)
    by done.
  cbn [fst snd]. eexists. split; [|reflexivity].
  cbn [with_signal emitted]. by rewrite Hem.
Qed.

Lemma run_result_table_records_witness :
  exists rs,
    JObj [(u "products", JArr [milk_record])] = JObj [(u "products", JArr rs)] /\
    Forall table_record rs.
Proof.
  apply (run_result_table_records net_found (u "4006381333931") empty_world).
  reflexivity.
Defined.

Lemma run_barcode_at_most_one_witness : (length [milk_record] <= 1)%nat.
Proof.
  apply (run_barcode_at_most_one net_found (u "4006381333931") empty_world);
    reflexivity.
Defined.

Lemma run_repeat_cached_witness :
  exists sig,
    emitted (snd (run net_found (u "4006381333931") empty_world)) = [] ++ [sig] /\
    run net_timeout (u "4006381333931")
        (snd (run net_found (u "4006381333931") empty_world))
      = (Ret tt,
         with_signal (snd (run net_found (u "4006381333931") empty_world)) sig).
Proof.
  apply (run_repeat_cached net_found net_timeout (u "4006381333931") empty_world).
  - reflexivity.
  - exists found_doc. reflexivity.
Defined.

Section Pipeline.

Variable net : network.

Lemma keeps_nonempty d : keeps d = true -> d <> [].
Proof. intros H ->. discriminate H. Qed.

(** A product that ends up listed has a truthy [product_name], so the
    filter of [search_products] lets it through. *)
Lemma listed_keeps d : listed d = true -> keeps d = true.
Proof.
  unfold listed, name_of, keeps, text_of.
  destruct (Py.dict_get d (u "product_name")) as [[| | | |s| |]|];
    try (unfold or_placeholder; cbn; discriminate).
  destruct s as [|c s]; [unfold or_placeholder; cbn; discriminate|].
  intros _. reflexivity.
Qed.

Lemma filter_listed_keeps ds :
  List.filter listed (List.filter keeps ds) = List.filter listed ds.
Proof.
  induction ds as [|d ds IH]; [done|]. cbn [List.filter].
  destruct (keeps d) eqn:Hk; cbn [List.filter].
  - by rewrite IH.
  - destruct (listed d) eqn:Hl; [|done].
    apply listed_keeps in Hl. congruence.
Qed.

Lemma clean_loop_text ds acc :
  Forall (fun d => d <> [] /\ text_typed d = true) ds ->
  clean_loop (List.map JObj ds) acc
    = Ret (acc ++ List.map record_of (List.filter listed ds)).
Proof.
  intros Hds. revert acc.
  induction Hds as [|d ds [Hd Ht] _ IH]; intros acc; cbn [List.map clean_loop List.filter].
  - by rewrite app_nil_r.
  - rewrite clean_product_data_text by done. cbn [bind outcome_monad].
    unfold record_of at 1. cbn [Py.getitem Py.dict_get]. eval_str_eqb.
    cbn [bind outcome_monad Py.eq_str]. fold (listed d).
    destruct (listed d); rewrite IH; [|done].
    cbn [List.map]. by rewrite <- app_assoc.
Qed.

(** X17. The whole text search on well-typed data.  When the answer to the
    search request is a JSON object whose [products] is a list of objects
    with [product_name] and [brands] absent or strings, [run] issues that
    one request and emits [search_complete] with, in the provider's order,
    the normalised record of exactly the products whose trimmed
    [product_name] is not empty, not [null] and not the placeholder text
    itself; [brands] plays no part in the selection. *)
Theorem run_text_pipeline q w resp d ds :
  strip q <> [] -> is_barcode (strip q) = false ->
  net (length (requests w)) (search_request (strip q) 25) = Ret resp ->
  json_body resp = Ret (JObj d) ->
  default (JArr []) (Py.dict_get d (u "products")) = JArr (List.map JObj ds) ->
  Forall (fun d => text_typed d = true) ds ->
  run net q w =
    (Ret tt,
     with_signal (with_request w (search_request (strip q) 25))
       (search_complete
          (JObj [(u "products",
                  JArr (List.map record_of (List.filter listed ds)))]))).
Proof.
  intros Hq Hb Hnet Hbody Hps Hds. rewrite run_nonempty by done.
  unfold candidates. rewrite Hb. cbn [bind M_monad].
  rewrite (search_products_dicts net _ _ _ resp d ds) by done.
  unfold lift. cbn [Py.get Py.dict_get]. eval_str_eqb. cbn [default id Py.iter].
  rewrite clean_loop_text.
  - by rewrite filter_listed_keeps.
  - apply Forall_forall. intros x [Hx Hk]%list_elem_of_In%filter_In.
    split; [by apply keeps_nonempty|].
    rewrite Forall_forall in Hds. apply Hds. by apply list_elem_of_In.
Qed.

End Pipeline.

Lemma run_text_pipeline_witness :
  run net_two (u " acme ") empty_world =
    (Ret tt,
     with_signal (with_request empty_world (search_request (u "acme") 25))
       (search_complete (JObj [(u "products", JArr [record_of yogurt_raw])]))).
Proof.
  apply (run_text_pipeline net_two (u " acme ") empty_world
           {| status_code := 200;
              json_body := Ret (JObj [(u "products",
                                 JArr [JObj acme_raw; JObj yogurt_raw])]) |}
           [(u "products", JArr [JObj acme_raw; JObj yogurt_raw])]
           [acme_raw; yogurt_raw]);
    [vm_compute; discriminate | reflexivity | reflexivity | reflexivity
    | reflexivity | repeat constructor].
Defined.

Section BarcodeFound.

Variable net : network.

(** X18. The successful barcode search.  For a barcode query that is not
    cached, when the answer has HTTP status 200 and is a JSON object whose
    [status] equals 1 and whose [product] is a non-empty object with
    [product_name] and [brands] absent or strings, [run] issues the one
    barcode request, stores the whole document in the cache under the
    stripped query and emits [search_complete] with the normalised record of
    the product, or with an empty list when the product's name normalises
    to the placeholder. *)
Theorem run_barcode_found q w resp d st pd :
  is_barcode (strip q) = true ->
  cache w !! strip q = None ->
  net (length (requests w)) (barcode_request (strip q)) = Ret resp ->
  status_code resp = 200 ->
  json_body resp = Ret (JObj d) ->
  Py.dict_get d (u "status") = Some st -> Py.eq_one st = true ->
  Py.dict_get d (u "product") = Some (JObj pd) ->
  pd <> [] -> text_typed pd = true ->
  run net q w =
    (Ret tt,
     {| cache := <[strip q := JObj d]> (cache w);
        requests := requests w ++ [barcode_request (strip q)];
        emitted := emitted w ++
          [search_complete
             (JObj [(u "products",
                     JArr (List.map record_of (List.filter listed [pd])))])] |}).
Proof.
  intros Hb Hc Hnet Hsc Hbody Hst Hone Hp Hpd Htt.
  assert (Hq : strip q <> []) by (intros E; by rewrite E in Hb).
  assert (Htp : Py.truthy (JObj pd) = true) by (by destruct pd).
  rewrite run_nonempty by done.
  unfold candidates. rewrite Hb. cbn [bind M_monad].
  rewrite (gpb_found net _ _ resp d st (JObj pd)) by done.
  unfold lift, Py.get, Py.getitem. rewrite Hst. cbn [default id]. rewrite Hone, Hp.
  cbn [default id]. rewrite Htp. cbn [ret M_monad Py.iter].
  assert (Hl : Forall (fun d => d <> [] /\ text_typed d = true) [pd])
    by (by repeat constructor).
  apply (clean_loop_text [pd] []) in Hl. cbn [List.map] in Hl. rewrite Hl.
  reflexivity.
Qed.

End BarcodeFound.

Lemma run_barcode_found_witness :
  run net_found (u "4006381333931 ") empty_world =
    (Ret tt,
     {| cache := <[u "4006381333931" := found_doc]> ∅;
        requests := [barcode_request (u "4006381333931")];
        emitted := [search_complete (JObj [(u "products", JArr [milk_record])])] |}).
Proof.
  apply (run_barcode_found net_found (u "4006381333931 ") empty_world
           {| status_code := 200; json_body := Ret found_doc |}
           [(u "status", JInt 1); (u "product", JObj milk_raw)]
           (JInt 1) milk_raw);
    try reflexivity. discriminate.
Defined.

Lemma gpb_cache_only_grows_witness :
  cache (snd (get_product_by_barcode net_unknown (u "12345678")
                (found_world (u "4006381333931")))) !! u "4006381333931"
    = Some found_doc.
Proof.
  destruct (gpb_cache_only_grows net_unknown (u "12345678")
              (found_world (u "4006381333931"))) as [_ H].
  rewrite H; [reflexivity | vm_compute; discriminate].
Defined.

Lemma run_resources_witness :
  cache (snd (run net_two (u "acme") (found_world (u "4006381333931"))))
    = cache (found_world (u "4006381333931")).
Proof.
  destruct (run_resources net_two (u "acme") (found_world (u "4006381333931")))
    as (_ & _ & H).
  apply H. reflexivity.
Defined.
